(** * TaktX download server: the job orchestration core of [src/server.py]

    A shallow embedding of the parts of [server.py] that submit, supervise,
    cancel, finalize and delete download jobs:

    - [parse_time_str] and the expected clip duration (lines 54-63, 259-275);
    - the two progress regular expressions and the per-line update of the
      status record (lines 32-35, 308-340);
    - the [/api/cancel] handler on the job registry (lines 159-170);
    - the finalize-or-cleanup tail of [start_download_process]
      (lines 342-390);
    - [delete_clip] and its handler (lines 196-202, 402-432).

    Python values are modelled as the code has them: [str] as [string] (code
    points below 256), [float] as the kernel's binary64 [float], the
    registry dict as a [gmap] from job id to status record, the library
    directory as a listing of named files.  What the operating system and the
    supervised process decide (lines printed, exit code, files left behind,
    which removals fail, when a cancel request is served) is an explicit
    environment the functions take as input. *)

From Stdlib Require Import ZArith String Ascii List Bool Lia.
From Stdlib Require Import PrimFloat SpecFloat FloatOps Uint63.
From Stdlib Require Import DecimalString.
From Stdlib Require Import Sorted Permutation OrderedTypeEx.
From stdpp Require Import gmap strings.

Local Open Scope string_scope.
Local Open Scope list_scope.

(** ** Python string primitives *)

Module Py.

(** [str.isspace] on one character, restricted to code points below 256:
    TAB..CR, FS..US, SPACE, NEL and NBSP.  The same predicate decides
    [\s] in a [str] pattern and what [str.strip()] removes. *)
Definition isspace (c : ascii) : bool :=
  let n := nat_of_ascii c in
  (Nat.leb 9 n && Nat.leb n 13) || (Nat.leb 28 n && Nat.leb n 32)
  || Nat.eqb n 133 || Nat.eqb n 160.

(** Decimal digits below code point 256: [0-9]. *)
Definition isdigit (c : ascii) : bool :=
  let n := nat_of_ascii c in Nat.leb 48 n && Nat.leb n 57.

Fixpoint lstrip (s : string) : string :=
  match s with
  | String c s' => if isspace c then lstrip s' else s
  | EmptyString => EmptyString
  end.

(** [rstrip] keeps a character when it is not white space or when something
    is kept after it. *)
Fixpoint rstrip (s : string) : string :=
  match s with
  | String c s' =>
      match rstrip s' with
      | EmptyString => if isspace c then EmptyString else String c EmptyString
      | r => String c r
      end
  | EmptyString => EmptyString
  end.

(** [s.strip()] *)
Definition strip (s : string) : string := rstrip (lstrip s).

(** [s.startswith(p)] *)
Fixpoint startswith (p s : string) : bool :=
  match p, s with
  | EmptyString, _ => true
  | String a p', String b s' => Ascii.eqb a b && startswith p' s'
  | String _ _, EmptyString => false
  end.

(** [p in s] *)
Fixpoint contains (p s : string) : bool :=
  startswith p s ||
  match s with
  | String _ s' => contains p s'
  | EmptyString => false
  end.

(** [s.endswith(p)] *)
Fixpoint endswith (p s : string) : bool :=
  String.eqb p s ||
  match s with
  | String _ s' => endswith p s'
  | EmptyString => false
  end.

(** [s.split(sep)] for a one-character separator: never the empty list
    ([''.split(':')] is [['']]). *)
Fixpoint split (sep : ascii) (s : string) : list string :=
  match s with
  | EmptyString => [EmptyString]
  | String c s' =>
      if Ascii.eqb c sep then EmptyString :: split sep s'
      else match split sep s' with
           | w :: ws => String c w :: ws
           | [] => [String c EmptyString]
           end
  end.

(** The first [n] characters of [s]. *)
Fixpoint take (n : nat) (s : string) : string :=
  match n, s with
  | S n', String c s' => String c (take n' s')
  | _, _ => EmptyString
  end.

End Py.

(** ** A backtracking matcher for the constructs the two patterns use

    Python's [re] is a backtracking engine: alternatives are tried in priority
    order (a greedy quantifier takes as much as it can first, a lazy one as
    little) and the first complete match wins; [search] tries the start
    positions from left to right.  The matcher below follows that order for
    the fragment that occurs in [PROGRESS_REGEX] and [FFMPEG_REGEX]:
    single-character classes under [?], [*], [*?], and unnested groups. *)

Module Re.

Inductive cclass :=
| Chr (c : ascii)      (* a literal character *)
| Space                (* \s *)
| NonSpace             (* \S *)
| Digit                (* \d *)
| Dot.                 (* .  : anything but a newline *)

Definition in_class (k : cclass) (c : ascii) : bool :=
  match k with
  | Chr a => Ascii.eqb a c
  | Space => Py.isspace c
  | NonSpace => negb (Py.isspace c)
  | Digit => Py.isdigit c
  | Dot => negb (Ascii.eqb c "010"%char)
  end.

Inductive item :=
| One (k : cclass)        (* k   *)
| Opt (k : cclass)        (* k?  *)
| Star (k : cclass)       (* k*  *)
| StarLazy (k : cclass)   (* k*? *)
| GOpen                   (* (   *)
| GClose.                 (* )   *)

Definition regex := list item.

(** [k+] and [k+?] *)
Definition plus (k : cclass) : regex := [One k; Star k].
Definition plus_lazy (k : cclass) : regex := [One k; StarLazy k].

(** A literal string. *)
Fixpoint lit (s : string) : regex :=
  match s with
  | String c s' => One (Chr c) :: lit s'
  | EmptyString => []
  end.

(** [match_at p s marks]: match [p] at the start of [s].  [marks] collects,
    most recent first, the rest of the subject at every group boundary
    crossed on the successful path. *)
Fixpoint match_at (p : regex) (s : string) (marks : list string)
  {struct p} : option (list string) :=
  match p with
  | [] => Some marks
  | One k :: p' =>
      match s with
      | String c s' => if in_class k c then match_at p' s' marks else None
      | EmptyString => None
      end
  | Opt k :: p' =>
      match s with
      | String c s' =>
          if in_class k c then
            match match_at p' s' marks with
            | Some r => Some r
            | None => match_at p' s marks
            end
          else match_at p' s marks
      | EmptyString => match_at p' s marks
      end
  | Star k :: p' =>
      (fix greedy (t : string) : option (list string) :=
         match t with
         | String c t' =>
             if in_class k c then
               match greedy t' with
               | Some r => Some r
               | None => match_at p' t marks
               end
             else match_at p' t marks
         | EmptyString => match_at p' t marks
         end) s
  | StarLazy k :: p' =>
      (fix lazy (t : string) : option (list string) :=
         match match_at p' t marks with
         | Some r => Some r
         | None =>
             match t with
             | String c t' => if in_class k c then lazy t' else None
             | EmptyString => None
             end
         end) s
  | GOpen :: p' => match_at p' s (s :: marks)
  | GClose :: p' => match_at p' s (s :: marks)
  end.

(** The number of group boundaries of a pattern. *)
Fixpoint boundaries (p : regex) : nat :=
  match p with
  | [] => 0
  | GOpen :: p' | GClose :: p' => S (boundaries p')
  | _ :: p' => boundaries p'
  end.

(** [re.search]: the match at the leftmost start position that has one. *)
Fixpoint search_marks (p : regex) (s : string) : option (list string) :=
  match match_at p s [] with
  | Some r => Some r
  | None =>
      match s with
      | String _ s' => search_marks p s'
      | EmptyString => None
      end
  end.

(** The text of the groups, first group first, from the boundary marks:
    a group is what lies between the rest at its [(] and the rest at its
    [)]. *)
Fixpoint groups_rev (marks : list string) : list string :=
  match marks with
  | close :: open :: rest =>
      Py.take (String.length open - String.length close) open
        :: groups_rev rest
  | _ => []
  end.

Definition groups (marks : list string) : list string :=
  rev (groups_rev marks).

(** [p.search(s)] followed by [.groups()]; [None] when there is no match. *)
Definition search (p : regex) (s : string) : option (list string) :=
  option_map groups (search_marks p s).

End Re.

(** ** Floats: [float(...)] and [f"{x:.1f}"] *)

Module PyFloat.

Local Open Scope Z_scope.

(** Decimal numeral of a natural number. *)
Definition Z_to_str (n : Z) : string :=
  NilZero.string_of_uint (N.to_uint (Z.to_N n)).

(** [num / den] rounded to the nearest integer, ties to even
    ([0 <= num], [0 < den]). *)
Definition round_half_even (num den : Z) : Z :=
  let q := num / den in
  match (2 * (num mod den)) ?= den with
  | Lt => q
  | Gt => q + 1
  | Eq => if Z.even q then q else q + 1
  end.

(** The number of tenths nearest to [m * 2^e]. *)
Definition tenths (m : positive) (e : Z) : Z :=
  if 0 <=? e then 10 * Z.pos m * 2 ^ e
  else round_half_even (10 * Z.pos m) (2 ^ (- e)).

(** [format(x, '.1f')]: the exact binary value rounded to one decimal,
    ties to even; the sign is printed also when the digits are all zero;
    ['nan'], ['inf'] and ['-inf'] for the special values. *)
Definition format_1f (x : float) : string :=
  let sign (s : bool) := if s then "-" else "" in
  match Prim2SF x with
  | S754_nan => "nan"
  | S754_infinity s => sign s ++ "inf"
  | S754_zero s => sign s ++ "0.0"
  | S754_finite s m e =>
      let t := tenths m e in
      sign s ++ Z_to_str (t / 10) ++ "." ++ Z_to_str (t mod 10)
  end.

(** *** A reader of plain decimal literals

    The builtin [float] is a parameter of everything below that calls it
    ([None] stands for the [ValueError] it raises).  [float_dec] is the
    instance the worked examples use: surrounding white space, an optional
    sign, digits with an optional fractional part, at most 15 digits in
    all, so that numerator and power of ten are exact binary64 values and
    their correctly rounded quotient is the value [float] returns.
    Where [float_dec] gives a number, it is the number [float] returns;
    it gives [None] where [float] raises and also on what lies outside it,
    although [float] reads it: exponents, [inf], [nan], underscores and
    literals of more than 15 digits. *)

(** The white space [float] strips: it first turns the white space above
    code point 126 (NEL and NBSP here) into a blank, then strips TAB..CR and
    the blank; FS..US, which [str.strip] removes, stay and make it raise. *)
Definition float_blank (c : ascii) : ascii :=
  let n := nat_of_ascii c in
  if Nat.eqb n 133 || Nat.eqb n 160 then " "%char else c.

Definition float_space (c : ascii) : bool :=
  let n := nat_of_ascii c in
  (Nat.leb 9 n && Nat.leb n 13) || Nat.eqb n 32.

Fixpoint float_blanks (s : string) : string :=
  match s with
  | EmptyString => EmptyString
  | String c s' => String (float_blank c) (float_blanks s')
  end.

Fixpoint float_lstrip (s : string) : string :=
  match s with
  | String c s' => if float_space c then float_lstrip s' else s
  | EmptyString => EmptyString
  end.

Fixpoint float_rstrip (s : string) : string :=
  match s with
  | String c s' =>
      match float_rstrip s' with
      | EmptyString =>
          if float_space c then EmptyString else String c EmptyString
      | r => String c r
      end
  | EmptyString => EmptyString
  end.

Fixpoint digits_val (s : string) (acc : Z) : option Z :=
  match s with
  | EmptyString => Some acc
  | String c s' =>
      if Py.isdigit c
      then digits_val s' (10 * acc + Z.of_nat (nat_of_ascii c) - 48)
      else None
  end.

Definition unsigned_dec (s : string) : option float :=
  match Py.split "." s with
  | [ip] =>
      match ip, digits_val ip 0 with
      | String _ _, Some n =>
          if (String.length ip <=? 15)%nat
          then Some (PrimFloat.of_uint63 (Uint63.of_Z n)) else None
      | _, _ => None
      end
  | [ip; fp] =>
      match digits_val (ip ++ fp) 0 with
      | Some n =>
          let k := String.length fp in
          if (Nat.ltb 0 (String.length (ip ++ fp))
              && Nat.leb (String.length (ip ++ fp)) 15)%bool
          then Some (PrimFloat.div (PrimFloat.of_uint63 (Uint63.of_Z n))
                       (PrimFloat.of_uint63 (Uint63.of_Z (10 ^ Z.of_nat k))))
          else None
      | None => None
      end
  | _ => None
  end.

Definition float_dec (s : string) : option float :=
  match float_rstrip (float_lstrip (float_blanks s)) with
  | String "-" u => option_map PrimFloat.opp (unsigned_dec u)
  | String "+" u => unsigned_dec u
  | u => unsigned_dec u
  end.

End PyFloat.

(** ** Configuration (lines 16-21) *)

Definition DOWNLOAD_DIR : string := "library".
Definition YT_DLP_CMD : string := "yt-dlp".

(** [os.path.join(DOWNLOAD_DIR, name)], with the POSIX separator. *)
Definition in_library (name : string) : string := DOWNLOAD_DIR ++ "/" ++ name.

(** ** Time strings and the expected duration *)

Section TimeRange.

(** The builtin [float] applied to a [str]: [None] when it raises. *)
Variable py_float : string -> option float.

(** The loop of [parse_time_str]: [Some] of the accumulator when every
    group converts, [None] as soon as [float(part)] raises. *)
Fixpoint parse_parts (parts : list string) (seconds : float) : option float :=
  match parts with
  | [] => Some seconds
  | part :: rest =>
      match py_float part with
      | Some v => parse_parts rest (seconds * 60 + v)%float
      | None => None
      end
  end.

(** [parse_time_str] (lines 54-63): the bare [except] turns any exception
    into [0.0]. *)
Definition parse_time_str (t_str : string) : float :=
  match parse_parts (Py.split ":" t_str) 0%float with
  | Some seconds => seconds
  | None => 0%float
  end.

End TimeRange.

(** ** The two progress patterns (lines 31-35) *)

Import Re.

(** The pattern of line 32, its tokens set apart:
    [\[download\] \s+ ( \d+ \.? \d* ) % \s+ of \s+ ~? ( \S+ ) \s+ at \s+
     ( .+? ) \s+ ETA \s+ ( \S+ )]. *)
Definition PROGRESS_REGEX : regex :=
  lit "[download]" ++ plus Space
  ++ [GOpen] ++ plus Digit ++ [Opt (Chr "."); Star Digit; GClose]
  ++ lit "%" ++ plus Space ++ lit "of" ++ plus Space ++ [Opt (Chr "~")]
  ++ [GOpen] ++ plus NonSpace ++ [GClose]
  ++ plus Space ++ lit "at" ++ plus Space
  ++ [GOpen] ++ plus_lazy Dot ++ [GClose]
  ++ plus Space ++ lit "ETA" ++ plus Space
  ++ [GOpen] ++ plus NonSpace ++ [GClose].

(** The pattern of line 35, its tokens set apart:
    [size= \s* ( \S+ ) \s+ time= \s* ( \S+ ) .*? speed= \s* ( \S+ )]. *)
Definition FFMPEG_REGEX : regex :=
  lit "size=" ++ [Star Space]
  ++ [GOpen] ++ plus NonSpace ++ [GClose]
  ++ plus Space ++ lit "time=" ++ [Star Space]
  ++ [GOpen] ++ plus NonSpace ++ [GClose]
  ++ [StarLazy Dot] ++ lit "speed=" ++ [Star Space]
  ++ [GOpen] ++ plus NonSpace ++ [GClose].

(** [match = PROGRESS_REGEX.search(line_str)] with
    [percent, size, speed, eta = match.groups()]. *)
Definition progress_search (line_str : string)
  : option (string * string * string * string) :=
  match search PROGRESS_REGEX line_str with
  | Some [percent; size; speed; eta] => Some (percent, size, speed, eta)
  | _ => None
  end.

(** [ff_match = FFMPEG_REGEX.search(line_str)] with
    [size, time_str, speed = ff_match.groups()]. *)
Definition ffmpeg_search (line_str : string)
  : option (string * string * string) :=
  match search FFMPEG_REGEX line_str with
  | Some [size; time_str; speed] => Some (size, time_str, speed)
  | _ => None
  end.

(** ** The job registry: [active_downloads_info] (lines 28, 279-286) *)

Inductive status := SDownloading | SFinished | SError | SCancelled.

Definition status_eqb (a b : status) : bool :=
  match a, b with
  | SDownloading, SDownloading | SFinished, SFinished
  | SError, SError | SCancelled, SCancelled => true
  | _, _ => false
  end.

(** The glossary's terminal statuses. *)
Definition terminal (s : status) : bool :=
  match s with SDownloading => false | _ => true end.

(** One entry of [active_downloads_info]; the key [size] only exists once a
    progress line has set it. *)
Record StatusRecord := {
  r_id : string;
  r_title : string;
  r_status : status;
  r_percent : string;
  r_size : option string;
  r_speed : string;
  r_eta : string
}.

Definition set_status (s : status) (r : StatusRecord) : StatusRecord :=
  {| r_id := r_id r; r_title := r_title r; r_status := s;
     r_percent := r_percent r; r_size := r_size r;
     r_speed := r_speed r; r_eta := r_eta r |}.

Definition set_percent (p : string) (r : StatusRecord) : StatusRecord :=
  {| r_id := r_id r; r_title := r_title r; r_status := r_status r;
     r_percent := p; r_size := r_size r;
     r_speed := r_speed r; r_eta := r_eta r |}.

(** The four assignments of lines 316-319 (and of 332-338). *)
Definition set_progress (p sz sp e : string) (r : StatusRecord) : StatusRecord :=
  {| r_id := r_id r; r_title := r_title r; r_status := r_status r;
     r_percent := p; r_size := Some sz; r_speed := sp; r_eta := e |}.

(** The record of lines 279-286. *)
Definition initial_record (clip_id title : string) : StatusRecord :=
  {| r_id := clip_id; r_title := title; r_status := SDownloading;
     r_percent := "0%"; r_size := None;
     r_speed := "0.00MiB/s"; r_eta := "--:--" |}.

(** What [/api/cancel] does to the entry it finds (line 162). *)
Definition mark_cancelled (r : StatusRecord) : StatusRecord :=
  set_status SCancelled r.

(** The [/api/cancel] handler (lines 159-170) on the registry: the new
    registry and the JSON body it answers with ([{"status": ...}], always
    with code 200).  Killing the process (lines 164-167) is the environment's
    side: it shows in the exit code and in the lines the job still reads. *)
Definition cancel_handler (clip_id : string) (reg : gmap string StatusRecord)
  : gmap string StatusRecord * string :=
  (match reg !! clip_id with
   | Some r => <[clip_id := mark_cancelled r]> reg
   | None => reg
   end, "cancelled").

(** ** The per-line update of the supervision loop (lines 308-340) *)

Section Progress.

Variable py_float : string -> option float.

(** Lines 328-334: the percent of a merge line. *)
Definition merge_percent (total_duration_secs : float) (time_str : string)
  : string :=
  if (0 <? total_duration_secs)%float then
    let curr_secs := parse_time_str py_float time_str in
    let pct := (curr_secs / total_duration_secs * 100)%float in
    let pct := if (100 <? pct)%float then 100%float else pct in
    PyFloat.format_1f pct ++ "%"
  else "indeterminate".

(** The body of [if line:] applied to the job's entry. *)
Definition handle_line (total_duration_secs : float) (r : StatusRecord)
  (line : string) : StatusRecord :=
  let line_str := Py.strip line in
  match progress_search line_str with
  | Some (percent, size, speed, eta) =>
      set_progress (percent ++ "%") size (Py.strip speed) eta r
  | None =>
      if Py.contains "frame=" line_str then
        match ffmpeg_search line_str with
        | Some (size, time_str, speed) =>
            set_progress (merge_percent total_duration_secs time_str)
              size (Py.strip speed ++ "x") "Processing" r
        | None => set_percent "indeterminate" r
        end
      else r
  end.

End Progress.
(** ** JSON values *)

Local Unset Elimination Schemes.

(** What [json.loads] can put under a key of the body. *)
Inductive json :=
| JNull
| JBool (b : bool)
| JInt (n : Z)
| JFloat (x : float)
| JString (s : string)
| JArray (items : list json)
| JObject (members : list (string * json)).

Local Set Elimination Schemes.

(** The JSON values that can be looked up in a [dict]: all but lists and
    objects, whose hash raises [TypeError]. *)
Inductive jkey :=
| KNull
| KBool (b : bool)
| KInt (n : Z)
| KFloat (x : float)
| KStr (s : string).

(** [hash(value)]: [None] when it raises. *)
Definition hashable (j : json) : option jkey :=
  match j with
  | JNull => Some KNull
  | JBool b => Some (KBool b)
  | JInt n => Some (KInt n)
  | JFloat x => Some (KFloat x)
  | JString s => Some (KStr s)
  | JArray _ | JObject _ => None
  end.

(** ** A submission and the command line (lines 236-277) *)

(** The JSON body of [/api/download] as the client sends it, for a job that
    has passed the lookup of line 250: the quality, if the key is there, is
    a value that can be hashed (what happens otherwise is
    [start_download_process_raw]); the other fields are strings; [None] is
    an absent key. *)
Record submission := {
  url : string;
  profile_id : option string;
  quality : option jkey;
  start_time : option string;
  end_time : option string;
  title : option string;
  group_id : option string;
  custom_title : option string;
  description : option string;
  tags : option string
}.

(** [quality_map] (lines 242-249). *)
Definition quality_map : gmap string string :=
  list_to_map
    [("best", "bestvideo[ext=mp4]+bestaudio[ext=m4a]/best[ext=mp4]/best");
     ("1080p", "bestvideo[height<=1080][ext=mp4]+bestaudio[ext=m4a]/best[height<=1080][ext=mp4]");
     ("720p", "bestvideo[height<=720][ext=mp4]+bestaudio[ext=m4a]/best[height<=720][ext=mp4]");
     ("video_only", "bestvideo[ext=mp4]");
     ("audio_best", "bestaudio[ext=m4a]/bestaudio");
     ("audio_low", "worstaudio[ext=m4a]/worstaudio")].

(** [quality_setting = data.get('quality', 'best')] *)
Definition quality_setting (data : submission) : jkey :=
  default (KStr "best") (quality data).

(** [fmt = quality_map.get(quality_setting, quality_map['best'])] for a
    setting that can be hashed: the keys of [quality_map] are strings, so
    any other value is not among them. *)
Definition fmt (data : submission) : string :=
  match quality_setting data with
  | KStr s => default (quality_map !!! "best") (quality_map !! s)
  | _ => quality_map !!! "best"
  end.

(** The body with another value, or none, under 'quality'. *)
Definition with_quality (q : option jkey) (data : submission)
  : submission :=
  {| url := url data; profile_id := profile_id data; quality := q;
     start_time := start_time data; end_time := end_time data;
     title := title data; group_id := group_id data;
     custom_title := custom_title data; description := description data;
     tags := tags data |}.

(** Python truth of an optional string: [None] and [''] are false. *)
Definition truthy (o : option string) : bool :=
  match o with
  | Some (String _ _) => true
  | _ => false
  end.

(** Lines 265-267: the section bounds after the defaults, [None] when
    neither bound was given. *)
Definition section_bounds (data : submission) : option (string * string) :=
  if truthy (start_time data) || truthy (end_time data) then
    Some (if truthy (start_time data) then default "" (start_time data)
          else "00:00:00",
          if truthy (end_time data) then default "" (end_time data)
          else "inf")
  else None.

Section Duration.

Variable py_float : string -> option float.

(** [total_duration_secs] as line 277 finds it (lines 263-275). *)
Definition total_duration_secs (data : submission) : float :=
  match section_bounds data with
  | Some (start_time, end_time) =>
      if String.eqb end_time "inf" then 0%float
      else
        let s_sec := parse_time_str py_float start_time in
        let e_sec := parse_time_str py_float end_time in
        (e_sec - s_sec)%float
  | None => 0%float
  end.

End Duration.

(** [cmd] as handed to [subprocess.Popen] (lines 252-277); [ffmpeg_exe] is
    [os.path.exists("ffmpeg.exe")]. *)
Definition build_cmd (ffmpeg_exe : bool) (clip_id : string)
  (data : submission) : list string :=
  [YT_DLP_CMD; "--no-colors"; "--newline"; "-f"; fmt data;
   "--write-thumbnail"; "--convert-thumbnails"; "jpg";
   "-o"; in_library (clip_id ++ ".%(ext)s")]
  ++ (if ffmpeg_exe then ["--ffmpeg-location"; "."] else [])
  ++ match section_bounds data with
     | Some (start_time, end_time) =>
         ["--download-sections"; ("*" ++ start_time ++ "-" ++ end_time)%string;
          "--force-keyframes-at-cuts"]
     | None => []
     end
  ++ [url data].
(** ** The library directory *)

(** The metadata record of lines 352-368; [m_title] is [data.get('title')]
    and [m_thumbnail] the optional key of line 368. *)
Record metadata := {
  m_id : string;
  m_group_id : string;
  m_profile_id : string;
  m_original_url : string;
  m_title : option string;
  m_custom_title : string;
  m_description : string;
  m_filename : string;
  m_range : string;
  m_tags : string;
  m_quality_profile : jkey;
  m_source_status : string;
  m_last_checked : string;
  m_created_at : string;
  m_thumbnail : option string
}.

(** A file of the directory: a metadata record, or anything else (media,
    thumbnail, part files, text that [json.load] rejects). *)
Inductive file := Blob | MetaFile (m : metadata).

(** The listing of [DOWNLOAD_DIR], in the order the system lists it; names
    are relative to the directory. *)
Definition fs := list (string * file).

Definition names (d : fs) : list string := map fst d.

(** [os.path.exists(os.path.join(DOWNLOAD_DIR, name))] *)
Definition path_exists (name : string) (d : fs) : bool :=
  existsb (String.eqb name) (names d).

Definition read_file (name : string) (d : fs) : option file :=
  option_map snd (find (fun e => String.eqb name (fst e)) d).

(** A successful [os.remove]. *)
Definition remove_file (name : string) (d : fs) : fs :=
  List.filter (fun e => negb (String.eqb name (fst e))) d.

(** [open(path, 'w')] followed by the dump: replaces the file in place or
    adds it to the listing. *)
Definition write_file (name : string) (f : file) (d : fs) : fs :=
  if path_exists name d
  then map (fun e => if String.eqb name (fst e) then (name, f) else e) d
  else d ++ [(name, f)].

(** [glob.glob] in [DOWNLOAD_DIR] for a pattern that is a literal prefix
    followed by [*].  Job ids are UUID strings (hex digits and dashes), so
    the prefix holds no pattern character and does not start with a dot. *)
Definition glob_prefix (prefix : string) (d : fs) : list string :=
  List.filter (Py.startswith prefix) (names d).

(** [glob.glob] for a pattern without [*]: the path itself when it exists. *)
Definition glob_exact (name : string) (d : fs) : list string :=
  if path_exists name d then [name] else [].

(** Lines 346-348: the artifact scan. *)
Definition find_media (clip_id : string) (d : fs) : list string :=
  let found := glob_exact (clip_id ++ ".mp4") d in
  let found :=
    match found with
    | [] => glob_prefix (clip_id ++ ".") d
    | _ => found
    end in
  List.filter (fun f => negb (Py.endswith ".jpg" (in_library f))
                   && negb (Py.endswith ".json" (in_library f))) found.

(** Line 349 *)
Definition media_filename (clip_id : string) (d : fs) : string :=
  match find_media clip_id d with
  | f :: _ => f
  | [] => clip_id ++ ".mp4"
  end.

(** Lines 386-388: [os.remove] on every match of [<id>*]; [locked] tells the
    removals that raise, which [except: pass] swallows. *)
Definition cleanup (locked : string -> bool) (clip_id : string) (d : fs) : fs :=
  fold_left
    (fun d' f => if locked f then d' else remove_file f d')
    (glob_prefix clip_id d) d.

(** ** One job: [start_download_process] (lines 236-390) *)

(** What the supervision loop meets at one turn: a line read from the
    process, an empty read while the process still runs, or a cancel request
    for this job served by the handler thread before the test of line 301
    of the next turn.  A request served while the job is blocked in
    [readline] is therefore the line that read returns, followed by the
    request: that line is still applied. *)
Inductive event :=
| Line (line : string)
| Idle
| CancelRequest.

(** The environment of one job.  The output of the process ends: after
    [events] the next read is empty and the process is over.  The three
    [late_cancel_*] flags place a cancel request for this job after the loop:
    between the test of line 343 and the assignment of line 373 or 376,
    between that assignment and the test of line 384, and during the sleeps
    of lines 385-389. *)
Record job_env := {
  ffmpeg_exe : bool;
  spawn_ok : bool;
  events : list event;
  returncode : Z;
  disk : fs;
  now : string;
  locked : string -> bool;
  late_cancel_wait : bool;
  late_cancel_final : bool;
  late_cancel_grace : bool
}.

(** What one job leaves behind. *)
Record job_result := {
  res_cmd : list string;
  res_after_loop : StatusRecord;
  res_meta : option metadata;
  res_finalized : StatusRecord;
  res_at_cleanup : StatusRecord;
  res_cleaned : bool;
  res_disk : fs;
  res_last : StatusRecord
}.

Definition cancel_if (b : bool) (r : StatusRecord) : StatusRecord :=
  if b then mark_cancelled r else r.

(** Lines 352-368 *)
Definition build_meta (clip_id : string) (data : submission) (d : fs)
  (created_at : string) : metadata :=
  {| m_id := clip_id;
     m_group_id := default "" (group_id data);
     m_profile_id := default "default" (profile_id data);
     m_original_url := url data;
     m_title := title data;
     m_custom_title := default "" (custom_title data);
     m_description := default "" (description data);
     m_filename := media_filename clip_id d;
     m_range := match section_bounds data with
                | Some (start_time, end_time) =>
                    (start_time ++ "-" ++ end_time)%string
                | None => "Full Video"
                end;
     m_tags := default "" (tags data);
     m_quality_profile := quality_setting data;
     m_source_status := "unchecked";
     m_last_checked := "";
     m_created_at := created_at;
     m_thumbnail := if path_exists (clip_id ++ ".jpg") d
                    then Some (clip_id ++ ".jpg")%string else None |}.

Section Job.

Variable py_float : string -> option float.

(** The [while True] loop of lines 299-340 on the job's registry entry. *)
Fixpoint supervise (total : float) (evs : list event) (r : StatusRecord)
  {struct evs} : StatusRecord :=
  if status_eqb (r_status r) SCancelled then r
  else
    match evs with
    | [] => r
    | Line line :: evs' => supervise total evs' (handle_line py_float total r line)
    | Idle :: evs' => supervise total evs' r
    | CancelRequest :: evs' => supervise total evs' (mark_cancelled r)
    end.

(** Lines 343-380 once the process was started: the metadata record
    written (if any), the directory and the registry entry.  Opening and
    writing [<id>.json] is taken to succeed. *)
Definition finalize (clip_id : string) (data : submission) (env : job_env)
  (r : StatusRecord) : option metadata * fs * StatusRecord :=
  if status_eqb (r_status r) SCancelled then (None, disk env, r)
  else
    let r := cancel_if (late_cancel_wait env) r in
    if (returncode env =? 0)%Z then
      let meta := build_meta clip_id data (disk env) (now env) in
      (Some meta,
       write_file (clip_id ++ ".json") (MetaFile meta) (disk env),
       set_percent "100%" (set_status SFinished r))
    else (None, disk env, set_status SError r).

Definition start_download_process (clip_id : string) (data : submission)
  (env : job_env) : job_result :=
  let cmd := build_cmd (ffmpeg_exe env) clip_id data in
  let total := total_duration_secs py_float data in
  let r0 := initial_record clip_id (default "Unknown" (title data)) in
  let r1 := if spawn_ok env then supervise total (events env) r0 else r0 in
  let '(meta, d, r2) :=
    if spawn_ok env then finalize clip_id data env r1
    else (None, disk env, set_status SError r1) in
  let r3 := cancel_if (late_cancel_final env) r2 in
  let cleaned := status_eqb (r_status r3) SCancelled
                 || status_eqb (r_status r3) SError in
  {| res_cmd := cmd;
     res_after_loop := r1;
     res_meta := meta;
     res_finalized := r2;
     res_at_cleanup := r3;
     res_cleaned := cleaned;
     res_disk := if cleaned then cleanup (locked env) clip_id d else d;
     res_last := cancel_if (late_cancel_grace env) r3 |}.

(** [start_download_process] on the body as [json.loads] returned it:
    [quality_json] is what the body holds under 'quality' ([None]: no such
    key) and [data] its other keys.  For a list or an object the lookup of
    line 250 raises [TypeError]; that is outside the [try] and before the
    registry entry of line 279, so the thread ends there and there is no
    job ([None]).  Otherwise the job runs as above. *)
Definition start_download_process_raw (clip_id : string)
  (quality_json : option json) (data : submission) (env : job_env)
  : option job_result :=
  match quality_json with
  | None => Some (start_download_process clip_id (with_quality None data) env)
  | Some j =>
      match hashable j with
      | Some k =>
          Some (start_download_process clip_id (with_quality (Some k) data)
                  env)
      | None => None
      end
  end.

(** The [/api/download] handler (lines 154-157): the job runs on a thread
    of its own and the answer is given at once, whatever the body holds and
    whatever becomes of the thread. *)
Definition download_handler (clip_id : string) (quality_json : option json)
  (data : submission) (env : job_env) : option job_result * string :=
  (start_download_process_raw clip_id quality_json data env, "started").

End Job.

(** ** [delete_clip] and the [/api/delete] handler (lines 196-202, 402-432) *)

Inductive rm_outcome := RmOk | RmPermissionError | RmOtherError.

(** What the system answers to the removals of one [delete_clip] call:
    [rm_video i] to the [i]-th [os.remove(vid_path)], counting from 0. *)
Record delete_env := {
  rm_video : nat -> rm_outcome;
  rm_thumb_ok : bool;
  rm_meta_ok : bool
}.

Inductive retry_end := Deleted | Exhausted | Raised.

(** The [for i in range(20)] loop of lines 412-418, from attempt [i] with
    [budget] attempts left: how it ends and how many times [os.remove] was
    called.  Every call but a successful one is followed by
    [time.sleep(0.5)] when it raised [PermissionError]. *)
Fixpoint remove_retry (oracle : nat -> rm_outcome) (budget i : nat)
  : retry_end * nat :=
  match budget with
  | O => (Exhausted, O)
  | S budget' =>
      match oracle i with
      | RmOk => (Deleted, 1)
      | RmOtherError => (Raised, 1)
      | RmPermissionError =>
          let '(e, calls) := remove_retry oracle budget' (S i) in
          (e, S calls)
      end
  end.

Definition RETRIES : nat := 20.

(** [delete_clip] as it runs: the value returned, the directory afterwards
    and the number of times [os.remove(vid_path)] was called. *)
Definition delete_clip_run (env : delete_env) (clip_id : string) (d : fs)
  : bool * fs * nat :=
  let path := (clip_id ++ ".json")%string in
  match read_file path d with
  | None => (false, d, 0)
  | Some Blob => (false, d, 0)
  | Some (MetaFile meta) =>
      let vid := m_filename meta in
      let thumb := (clip_id ++ ".jpg")%string in
      let '(after_video, calls) :=
        (* [os.path.join(DOWNLOAD_DIR, '')] is the directory, which exists *)
        if String.eqb vid "" || path_exists vid d then
          (match fst (remove_retry (rm_video env) RETRIES 0) with
           | Deleted => Some (remove_file vid d)
           | Exhausted | Raised => None
           end,
           snd (remove_retry (rm_video env) RETRIES 0))
        else (Some d, 0) in
      match after_video with
      | None => (false, d, calls)
      | Some d1 =>
          let d2 := if path_exists thumb d1 && rm_thumb_ok env
                    then remove_file thumb d1 else d1 in
          if rm_meta_ok env then (true, remove_file path d2, calls)
          else (false, d2, calls)
      end
  end.

(** [delete_clip]: the value returned and the directory afterwards. *)
Definition delete_clip (env : delete_env) (clip_id : string) (d : fs)
  : bool * fs :=
  fst (delete_clip_run env clip_id d).

(** The answer of [/api/delete]: status code and body or message. *)
Definition delete_handler (env : delete_env) (clip_id : string) (d : fs)
  : (Z * string) * fs :=
  let '(success, d') := delete_clip env clip_id d in
  (if success then (200%Z, "deleted")
   else (500%Z, "Could not delete file (locked)"), d').
(** ** Worked inputs *)

(** A submission with nothing but a source URL. *)
Definition plain_submission : submission :=
  {| url := "X"; profile_id := None; quality := None;
     start_time := None; end_time := None; title := None;
     group_id := None; custom_title := None; description := None;
     tags := None |}.

Definition with_range (st en : option string) (data : submission)
  : submission :=
  {| url := url data; profile_id := profile_id data; quality := quality data;
     start_time := st; end_time := en; title := title data;
     group_id := group_id data; custom_title := custom_title data;
     description := description data; tags := tags data |}.

(** The spec's example: one minute, from 00:01:00 to 00:02:00. *)
Definition minute_clip : submission :=
  with_range (Some "00:01:00") (Some "00:02:00") plain_submission.

(** A range whose end lies before its start. *)
Definition backwards_clip : submission :=
  with_range (Some "00:02:00") (Some "00:01:00") plain_submission.

(** A merge line as ffmpeg prints it, half a minute in. *)
Definition merge_line : string :=
  "frame=  750 fps= 25 q=-1.0 size=   20224kB time=00:00:30 bitrate=5505.4kbits/s speed=1.73x".

(** A fetch line as yt-dlp prints it. *)
Definition fetch_line : string :=
  "[download]  45.3% of ~10.50MiB at  1.20MiB/s ETA 00:05".

(** A line with the frame marker that the merge pattern does not match. *)
Definition bare_frame_line : string := "frame=    1 fps=0.0 q=0.0".

(** A line of the fetch shape that holds the frame marker where the speed
    stands. *)
Definition fetch_line_with_marker : string :=
  "[download] 5% of 1MiB at frame=1 ETA 1".

(** A line of the fetch shape that holds the frame marker and, where the
    speed stands, everything the merge pattern asks for. *)
Definition fetch_line_with_merge_fields : string :=
  "[download] 5% of 1MiB at frame=1 size=1kB time=00:00:30 speed=1x ETA 1".

(** A job that has just finished. *)
Definition finished_record : StatusRecord :=
  set_percent "100%" (set_status SFinished (initial_record "job" "Unknown")).

(** A quiet system: the process starts, prints nothing, exits with 0 and
    leaves a media file and a thumbnail; no removal fails and no cancel
    request comes. *)
Definition quiet_env : job_env :=
  {| ffmpeg_exe := false; spawn_ok := true; events := []; returncode := 0;
     disk := [("job.mp4", Blob); ("job.jpg", Blob); ("other.mp4", Blob)];
     now := "2024-01-01T00:00:00"; locked := fun _ => false;
     late_cancel_wait := false; late_cancel_final := false;
     late_cancel_grace := false |}.

(** ** [update_metadata] and the [/api/update] handler (lines 172-175, 392-400) *)

(** The JSON body of [/api/update]: the id and the fields to change, [None]
    for a key that the body does not hold. *)
Record update_request := {
  u_id : string;
  u_tags : option string;
  u_custom_title : option string;
  u_description : option string;
  u_group_id : option string;
  u_source_status : option string;
  u_last_checked : option string;
  u_profile_id : option string
}.

(** Lines 397-399: the seven keys of [fields] are copied when the body holds
    them; no other key of the record is assigned. *)
Definition apply_update (u : update_request) (m : metadata) : metadata :=
  {| m_id := m_id m;
     m_group_id := default (m_group_id m) (u_group_id u);
     m_profile_id := default (m_profile_id m) (u_profile_id u);
     m_original_url := m_original_url m;
     m_title := m_title m;
     m_custom_title := default (m_custom_title m) (u_custom_title u);
     m_description := default (m_description m) (u_description u);
     m_filename := m_filename m;
     m_range := m_range m;
     m_tags := default (m_tags m) (u_tags u);
     m_quality_profile := m_quality_profile m;
     m_source_status := default (m_source_status m) (u_source_status u);
     m_last_checked := default (m_last_checked m) (u_last_checked u);
     m_created_at := m_created_at m;
     m_thumbnail := m_thumbnail m |}.

(** [update_metadata]: the directory afterwards; [None] when [json.load]
    raises on a file that is no metadata record (nothing catches it). *)
Definition update_metadata (u : update_request) (d : fs) : option fs :=
  let path := (u_id u ++ ".json")%string in
  match read_file path d with
  | None => Some d
  | Some Blob => None
  | Some (MetaFile meta) =>
      Some (write_file path (MetaFile (apply_update u meta)) d)
  end.

(** The [/api/update] handler: the body of the answer and the directory;
    [None] when [update_metadata] raised and no answer is written. *)
Definition update_handler (u : update_request) (d : fs)
  : option (string * fs) :=
  option_map (fun d' => ("success", d')) (update_metadata u d).

(** ** [get_library_data] (lines 210-234) *)

(** [glob.glob(os.path.join(DOWNLOAD_DIR, "*.json"))]: the names that end in
    ".json"; a pattern that does not start with a dot skips the names that
    do. *)
Definition glob_json (d : fs) : list string :=
  List.filter
    (fun name => Py.endswith ".json" name && negb (Py.startswith "." name))
    (names d).

(** One clip of the listing: the record as loaded, with the [thumbnail] key
    of line 230, and the [file_size] of line 221. *)
Record clip := {
  c_meta : metadata;
  c_file_size : Z
}.

Definition with_thumbnail (t : option string) (m : metadata) : metadata :=
  {| m_id := m_id m; m_group_id := m_group_id m;
     m_profile_id := m_profile_id m; m_original_url := m_original_url m;
     m_title := m_title m; m_custom_title := m_custom_title m;
     m_description := m_description m; m_filename := m_filename m;
     m_range := m_range m; m_tags := m_tags m;
     m_quality_profile := m_quality_profile m;
     m_source_status := m_source_status m;
     m_last_checked := m_last_checked m; m_created_at := m_created_at m;
     m_thumbnail := t |}.

(** The body of the loop of lines 213-232 for one metadata file: [None] when
    nothing is appended (the file does not load, the record names no file, or
    the file it names is not there).  [getsize] is [os.path.getsize]. *)
Definition library_entry (getsize : string -> Z) (d : fs)
  (meta_name : string) : option clip :=
  match read_file meta_name d with
  | Some (MetaFile m) =>
      if negb (String.eqb (m_filename m) "") && path_exists (m_filename m) d
      then Some {| c_meta :=
                     if path_exists (m_id m ++ ".jpg") d
                     then with_thumbnail (Some (m_id m ++ ".jpg")%string) m
                     else m;
                   c_file_size := getsize (m_filename m) |}
      else None
  | _ => None
  end.

(** The clips in the order of the loop, before the sort. *)
Fixpoint collect_clips (getsize : string -> Z) (d : fs)
  (meta_names : list string) : list clip :=
  match meta_names with
  | [] => []
  | n :: rest =>
      match library_entry getsize d n with
      | Some c => c :: collect_clips getsize d rest
      | None => collect_clips getsize d rest
      end
  end.

(** The sort key of line 233. *)
Definition created_at (c : clip) : string := m_created_at (c_meta c).

(** [clips.sort(key=..., reverse=True)] is a stable sort: the result is the
    one list that is in descending key order and keeps clips of equal key in
    their order.  It is computed here by insertion from the right: a clip
    goes in front of the first clip whose key is not greater than its
    own. *)
Fixpoint insert_desc (c : clip) (l : list clip) : list clip :=
  match l with
  | [] => [c]
  | x :: l' =>
      if String.ltb (created_at c) (created_at x)
      then x :: insert_desc c l'
      else c :: l
  end.

Fixpoint sort_desc (l : list clip) : list clip :=
  match l with
  | [] => []
  | c :: l' => insert_desc c (sort_desc l')
  end.

Definition get_library_data (getsize : string -> Z) (d : fs) : list clip :=
  sort_desc (collect_clips getsize d (glob_json d)).

(** [a] may stand before [b] in the listing: its [created_at] is not less
    than that of [b], as strings. *)
Definition not_older (a b : clip) : Prop :=
  String.leb (created_at b) (created_at a) = true.

(** ** The tags of [sync_data_on_startup] (lines 84-101) *)

(** Lines 92-95: the tags of one record, split at commas, stripped, the
    empty ones dropped. *)
Definition clean_tags (tags : string) : list string :=
  if String.eqb tags "" then []
  else List.filter (fun clean => negb (String.eqb clean ""))
         (map Py.strip (Py.split "," tags)).

(** The set [existing_tags] after the loop of lines 87-100, from the tags of
    the settings: a file that does not load is passed over ([except: pass]).
    A record always holds [profile_id] here, so the rewrite of lines 96-99
    does not occur. *)
Definition synced_tags (settings_tags : list string) (d : fs) : gset string :=
  fold_left
    (fun existing_tags meta_name =>
       match read_file meta_name d with
       | Some (MetaFile m) =>
           existing_tags ∪ list_to_set (clean_tags (m_tags m))
       | _ => existing_tags
       end)
    (glob_json d) (list_to_set settings_tags).

(** ** Predicates on matched text *)

(** Every character of [s] passes the test [P]. *)
Fixpoint all_chars (P : ascii -> bool) (s : string) : bool :=
  match s with
  | EmptyString => true
  | String c s' => P c && all_chars P s'
  end.

(** The class of an item that reads characters; [None] for a group
    boundary. *)
Definition item_class (it : item) : option cclass :=
  match it with
  | One k | Opt k | Star k | StarLazy k => Some k
  | GOpen | GClose => None
  end.

(** What the first group of [PROGRESS_REGEX] may hold besides its leading
    digit: digits and dots. *)
Definition digit_or_dot (c : ascii) : bool :=
  Py.isdigit c || Ascii.eqb c ".".

(** ** Time strings: properties *)

Section TimeRangeFacts.

Variable py_float : string -> option float.

Lemma parse_parts_fold (parts : list string) (vals : list float) :
  forall acc : float,
    Forall2 (fun part v => py_float part = Some v) parts vals ->
    parse_parts py_float parts acc
    = Some (fold_left (fun a v => (a * 60 + v)%float) vals acc).
Proof.
  intros acc H. revert acc.
  induction H as [|part v parts vals Hv _ IH]; intros acc; simpl.
  - reflexivity.
  - rewrite Hv. apply IH.
Qed.

Lemma parse_parts_fail (parts : list string) :
  forall acc : float,
    (exists part, In part parts /\ py_float part = None) ->
    parse_parts py_float parts acc = None.
Proof.
  induction parts as [|p parts IH]; intros acc [part [Hin Hnone]].
  - destruct Hin.
  - simpl. destruct (py_float p) as [v|] eqn:Hp; [|reflexivity].
    destruct Hin as [->|Hin]; [congruence|].
    apply IH. exists part. split; assumption.
Qed.

End TimeRangeFacts.

(** C5.  [parse_time_str] splits on colons and folds the groups from the
    left as [acc * 60 + group]: when [float] converts every group, the result
    is that fold from [0.0]; when [float] rejects some group, the result is
    [0.0] (the function is total, nothing is raised).  With plain decimal
    groups, "00:02:00" parses to [120.0]. *)
Theorem parse_time_str_fold (py_float : string -> option float)
  (t_str : string) :
  (forall vals : list float,
      Forall2 (fun part v => py_float part = Some v) (Py.split ":" t_str) vals ->
      parse_time_str py_float t_str
      = fold_left (fun acc v => (acc * 60 + v)%float) vals 0%float)
  /\ ((exists part, In part (Py.split ":" t_str) /\ py_float part = None) ->
      parse_time_str py_float t_str = 0%float)
  /\ parse_time_str PyFloat.float_dec "00:02:00" = 120%float.
Proof.
  unfold parse_time_str. split; [|split].
  - intros vals H. rewrite (parse_parts_fold py_float _ vals 0%float H).
    reflexivity.
  - intros H. rewrite (parse_parts_fail py_float _ 0%float H). reflexivity.
  - vm_compute. reflexivity.
Qed.

Lemma parse_time_str_fold_witness :
  parse_time_str PyFloat.float_dec "1:30"
  = fold_left (fun acc v => (acc * 60 + v)%float) [1%float; 30%float] 0%float
  /\ parse_time_str PyFloat.float_dec "1:3o" = 0%float.
Proof.
  destruct (parse_time_str_fold PyFloat.float_dec "1:30") as [Hfold _].
  destruct (parse_time_str_fold PyFloat.float_dec "1:3o") as [_ [Hbad _]].
  split.
  - apply Hfold. repeat constructor.
  - apply Hbad. exists "3o". split; [simpl; auto | reflexivity].
Defined.

(** ** The expected duration: properties *)

(** C4, as the code has it.  With both bounds given and the end not the
    open-ended "inf", the expected duration is [parse(end) - parse(start)]
    as it comes, with no clamp; with neither bound given, or with the end
    absent or "inf", it is [0.0]. *)
Theorem total_duration_unclamped (py_float : string -> option float)
  (data : submission) :
  (forall s e : string,
      start_time data = Some s -> end_time data = Some e ->
      s <> "" -> e <> "" -> e <> "inf" ->
      total_duration_secs py_float data
      = (parse_time_str py_float e - parse_time_str py_float s)%float)
  /\ (truthy (start_time data) = false -> truthy (end_time data) = false ->
      total_duration_secs py_float data = 0%float)
  /\ (truthy (end_time data) = false \/ end_time data = Some "inf" ->
      total_duration_secs py_float data = 0%float).
Proof.
  unfold total_duration_secs, section_bounds. split; [|split].
  - intros s e Hs He Hs0 He0 Hinf. rewrite Hs, He.
    assert (Hts : truthy (Some s) = true) by (destruct s; [congruence | reflexivity]).
    assert (Hte : truthy (Some e) = true) by (destruct e; [congruence | reflexivity]).
    rewrite Hts, Hte. cbv beta iota delta [default from_option id orb].
    apply String.eqb_neq in Hinf. rewrite Hinf. reflexivity.
  - intros Hs He. rewrite Hs, He. reflexivity.
  - intros [He|He].
    + rewrite He. destruct (truthy (start_time data)); reflexivity.
    + rewrite He. simpl. rewrite orb_true_r. reflexivity.
Qed.

Lemma total_duration_unclamped_witness :
  total_duration_secs PyFloat.float_dec minute_clip
  = (parse_time_str PyFloat.float_dec "00:02:00"
     - parse_time_str PyFloat.float_dec "00:01:00")%float
  /\ total_duration_secs PyFloat.float_dec plain_submission = 0%float.
Proof.
  split.
  - apply (proj1 (total_duration_unclamped PyFloat.float_dec minute_clip));
      [reflexivity | reflexivity | discriminate | discriminate | discriminate].
  - apply (proj1 (proj2 (total_duration_unclamped PyFloat.float_dec
                           plain_submission))); reflexivity.
Defined.

(** C4 as stated fails: for a range from 00:02:00 to 00:01:00 the expected
    duration is [-60.0], a negative number, where the claim has [0]. *)
Lemma total_duration_negative :
  total_duration_secs PyFloat.float_dec backwards_clip = (-60)%float
  /\ (total_duration_secs PyFloat.float_dec backwards_clip <? 0)%float = true
  /\ (total_duration_secs PyFloat.float_dec backwards_clip =? 0)%float = false.
Proof. vm_compute. repeat split. Qed.

(** ** Progress lines: properties *)

(** C3, as the code has it.  For a line that the fetch pattern, tried
    first, does not match, that holds the frame marker and whose sub-match
    succeeds: with a positive expected duration the percent is
    [elapsed / expected * 100], replaced by 100 when above it, printed with
    one decimal and a percent sign (so "100.0%" once the quotient passes
    100); with an expected duration of zero, or any that is not positive,
    the percent is the literal "indeterminate". *)
Theorem merge_percent_reported (py_float : string -> option float)
  (total : float) (r : StatusRecord) (line size time_str speed : string) :
  progress_search (Py.strip line) = None ->
  Py.contains "frame=" (Py.strip line) = true ->
  ffmpeg_search (Py.strip line) = Some (size, time_str, speed) ->
  let pct := (parse_time_str py_float time_str / total * 100)%float in
  let r' := handle_line py_float total r line in
  ((0 <? total)%float = true ->
   r_percent r'
   = (PyFloat.format_1f (if (100 <? pct)%float then 100%float else pct)
      ++ "%")%string)
  /\ ((0 <? total)%float = true -> (100 <? pct)%float = true ->
      r_percent r' = "100.0%")
  /\ (total = 0%float -> r_percent r' = "indeterminate")
  /\ ((0 <? total)%float = false -> r_percent r' = "indeterminate").
Proof.
  intros Hstd Hmark Hff pct r'. subst r'. unfold handle_line.
  rewrite Hstd, Hmark, Hff. simpl. unfold merge_percent. fold pct.
  repeat split.
  - intros ->. reflexivity.
  - intros -> ->. reflexivity.
  - intros ->. reflexivity.
  - intros ->. reflexivity.
Qed.

(** The spec's example: half a minute into a one-minute clip is "50.0%". *)
Lemma merge_percent_reported_witness :
  r_percent
    (handle_line PyFloat.float_dec
       (total_duration_secs PyFloat.float_dec minute_clip)
       (initial_record "job" "Unknown") merge_line)
  = "50.0%".
Proof.
  destruct (merge_percent_reported PyFloat.float_dec
              (total_duration_secs PyFloat.float_dec minute_clip)
              (initial_record "job" "Unknown") merge_line
              "20224kB" "00:00:30" "1.73x") as [H _];
    [reflexivity | reflexivity | reflexivity |].
  rewrite H; reflexivity.
Defined.

(** C3 as stated fails: the line below holds the frame marker and the merge
    pattern matches it, with an elapsed time of 00:00:30, yet the fetch
    pattern matches it too, and that is tried first: the percent becomes
    "5%", not "50.0%" for an expected duration of 60, and not
    "indeterminate" for an expected duration of 0. *)
Lemma merge_fields_in_fetch_line :
  let r := initial_record "job" "Unknown" in
  Py.contains "frame=" (Py.strip fetch_line_with_merge_fields) = true
  /\ ffmpeg_search (Py.strip fetch_line_with_merge_fields)
     = Some ("1kB", "00:00:30", "1x")
  /\ (0 <? total_duration_secs PyFloat.float_dec minute_clip)%float = true
  /\ r_percent (handle_line PyFloat.float_dec
                  (total_duration_secs PyFloat.float_dec minute_clip) r
                  fetch_line_with_merge_fields) = "5%"
  /\ "5%" <> "50.0%"
  /\ r_percent (handle_line PyFloat.float_dec 0%float r
                  fetch_line_with_merge_fields) = "5%"
  /\ "5%" <> "indeterminate".
Proof. vm_compute. repeat split; discriminate. Qed.

(** C6, as the code has it.  A line that the fetch pattern does not match,
    that holds the frame marker and that the merge pattern does not match
    sets the percent to "indeterminate" and leaves everything else as it
    was. *)
Theorem frame_line_unmatched (py_float : string -> option float)
  (total : float) (r : StatusRecord) (line : string) :
  progress_search (Py.strip line) = None ->
  Py.contains "frame=" (Py.strip line) = true ->
  ffmpeg_search (Py.strip line) = None ->
  let r' := handle_line py_float total r line in
  r_percent r' = "indeterminate"
  /\ r_size r' = r_size r /\ r_speed r' = r_speed r /\ r_eta r' = r_eta r
  /\ r_status r' = r_status r /\ r_id r' = r_id r /\ r_title r' = r_title r.
Proof.
  intros Hstd Hmark Hff. unfold handle_line.
  rewrite Hstd, Hmark, Hff. simpl. repeat split.
Qed.

Lemma frame_line_unmatched_witness :
  let r := initial_record "job" "Unknown" in
  let r' := handle_line PyFloat.float_dec 60%float r bare_frame_line in
  r_percent r' = "indeterminate"
  /\ r_size r' = r_size r /\ r_speed r' = r_speed r /\ r_eta r' = r_eta r
  /\ r_status r' = r_status r /\ r_id r' = r_id r /\ r_title r' = r_title r.
Proof.
  apply (frame_line_unmatched PyFloat.float_dec 60%float
           (initial_record "job" "Unknown") bare_frame_line); reflexivity.
Defined.

(** C6 as stated fails: the line below holds the frame marker and the merge
    pattern does not match it, yet the fetch pattern does, so the percent
    becomes "5%" and size, speed and eta are overwritten. *)
Lemma frame_marker_in_fetch_line :
  let r := initial_record "job" "Unknown" in
  let r' := handle_line PyFloat.float_dec 60%float r fetch_line_with_marker in
  Py.contains "frame=" (Py.strip fetch_line_with_marker) = true
  /\ ffmpeg_search (Py.strip fetch_line_with_marker) = None
  /\ r_percent r' = "5%" /\ r_percent r' <> "indeterminate"
  /\ r_size r' = Some "1MiB" /\ r_size r' <> r_size r
  /\ r_speed r' = "frame=1" /\ r_speed r' <> r_speed r
  /\ r_eta r' = "1" /\ r_eta r' <> r_eta r.
Proof. vm_compute. repeat split; discriminate. Qed.

(** C7.  A line the fetch pattern matches sets the percent to the matched
    number followed by a percent sign, the size, the speed stripped of
    surrounding white space and the ETA token as matched, and nothing else;
    a line of neither shape (no fetch match, no frame marker) leaves the
    record as it was.  The update is a total function: nothing is raised. *)
Theorem fetch_line_update (py_float : string -> option float)
  (total : float) (r : StatusRecord) (line : string) :
  (forall percent size speed eta : string,
      progress_search (Py.strip line) = Some (percent, size, speed, eta) ->
      handle_line py_float total r line
      = {| r_id := r_id r; r_title := r_title r; r_status := r_status r;
           r_percent := (percent ++ "%")%string; r_size := Some size;
           r_speed := Py.strip speed; r_eta := eta |})
  /\ (progress_search (Py.strip line) = None ->
      Py.contains "frame=" (Py.strip line) = false ->
      handle_line py_float total r line = r).
Proof.
  unfold handle_line. split.
  - intros percent size speed eta ->. reflexivity.
  - intros -> ->. reflexivity.
Qed.

Lemma fetch_line_update_witness :
  let r := initial_record "job" "Unknown" in
  handle_line PyFloat.float_dec 0%float r fetch_line
  = {| r_id := "job"; r_title := "Unknown"; r_status := SDownloading;
       r_percent := "45.3%"; r_size := Some "10.50MiB";
       r_speed := "1.20MiB/s"; r_eta := "00:05" |}
  /\ handle_line PyFloat.float_dec 0%float r "[Merger] Merging formats" = r.
Proof.
  split.
  - apply (proj1 (fetch_line_update PyFloat.float_dec 0%float
                    (initial_record "job" "Unknown") fetch_line)
             "45.3" "10.50MiB" "1.20MiB/s" "00:05").
    reflexivity.
  - apply (proj2 (fetch_line_update PyFloat.float_dec 0%float
                    (initial_record "job" "Unknown")
                    "[Merger] Merging formats")); reflexivity.
Defined.

(** ** The cancel handler: properties *)

Lemma mark_cancelled_idem (r : StatusRecord) :
  mark_cancelled (mark_cancelled r) = mark_cancelled r.
Proof. reflexivity. Qed.

(** C2, as the code has it.  A cancel request answers "cancelled" every
    time; when the id is in the registry it sets the status of that entry to
    cancelled whatever the status was, and changes nothing else in the entry
    or in the registry; when the id is absent it changes nothing; a second
    request on the same id changes nothing more. *)
Theorem cancel_handler_overwrites (clip_id : string)
  (reg : gmap string StatusRecord) :
  snd (cancel_handler clip_id reg) = "cancelled"
  /\ (forall r : StatusRecord,
         reg !! clip_id = Some r ->
         fst (cancel_handler clip_id reg) !! clip_id
         = Some (set_status SCancelled r))
  /\ (reg !! clip_id = None -> fst (cancel_handler clip_id reg) = reg)
  /\ (forall other : string,
         other <> clip_id ->
         fst (cancel_handler clip_id reg) !! other = reg !! other)
  /\ cancel_handler clip_id (fst (cancel_handler clip_id reg))
     = cancel_handler clip_id reg.
Proof.
  unfold cancel_handler. simpl. repeat split.
  - intros r ->. apply lookup_insert_eq.
  - intros ->. reflexivity.
  - intros other Hne. destruct (reg !! clip_id); [|reflexivity].
    apply lookup_insert_ne. congruence.
  - f_equal. destruct (reg !! clip_id) as [r|] eqn:Hr.
    + rewrite lookup_insert_eq, insert_insert_eq. reflexivity.
    + rewrite Hr. reflexivity.
Qed.

Lemma cancel_handler_overwrites_witness :
  fst (cancel_handler "job" {[ "job" := initial_record "job" "Unknown" ]})
    !! "job"
  = Some (set_status SCancelled (initial_record "job" "Unknown"))
  /\ fst (cancel_handler "job" (∅ : gmap string StatusRecord)) = ∅.
Proof.
  split.
  - apply (proj1 (proj2 (cancel_handler_overwrites "job"
                           {[ "job" := initial_record "job" "Unknown" ]}))).
    apply lookup_singleton_eq.
  - apply (proj1 (proj2 (proj2 (cancel_handler_overwrites "job" ∅)))).
    apply lookup_empty.
Defined.

(** C2 as stated fails: a cancel request on an entry that is already
    finished, a terminal status, turns it to cancelled; and within one job a
    request served during the grace sleep does so after line 373 has set
    finished. *)
Lemma cancel_overwrites_finished :
  terminal (r_status finished_record) = true
  /\ fst (cancel_handler "job" {[ "job" := finished_record ]}) !! "job"
     = Some (set_status SCancelled finished_record)
  /\ r_status (set_status SCancelled finished_record)
     <> r_status finished_record
  /\ (let res := start_download_process PyFloat.float_dec "job"
                   plain_submission
                   {| ffmpeg_exe := false; spawn_ok := true; events := [];
                      returncode := 0; disk := disk quiet_env;
                      now := now quiet_env; locked := locked quiet_env;
                      late_cancel_wait := false; late_cancel_final := false;
                      late_cancel_grace := true |} in
      r_status (res_at_cleanup res) = SFinished
      /\ r_status (res_last res) = SCancelled).
Proof.
  split; [reflexivity|]. split.
  - unfold cancel_handler. simpl. rewrite lookup_singleton_eq.
    apply lookup_insert_eq.
  - split; [discriminate|]. split; reflexivity.
Qed.

(** ** The format selector: properties *)

Lemma quality_map_unknown (q : string) :
  q <> "best" -> q <> "1080p" -> q <> "720p" -> q <> "video_only" ->
  q <> "audio_best" -> q <> "audio_low" ->
  quality_map !! q = None.
Proof.
  intros H1 H2 H3 H4 H5 H6. unfold quality_map. cbn [list_to_map foldr fst snd].
  repeat (rewrite lookup_insert_ne by congruence).
  apply lookup_empty.
Qed.

Lemma quality_map_best :
  quality_map !!! "best"
  = "bestvideo[ext=mp4]+bestaudio[ext=m4a]/best[ext=mp4]/best".
Proof. vm_compute. reflexivity. Qed.

(** C9, as the code has it.  A quality setting that can be hashed (a JSON
    string, number, boolean or null) and is none of the six keys of
    [quality_map] selects the format of the 'best' entry: the job is started
    with the same command line as for 'best', runs through the same
    statuses, and the handler answers "started" as for any other
    submission. *)
Theorem unknown_quality_uses_best (py_float : string -> option float)
  (clip_id : string) (j : json) (k : jkey) (data : submission)
  (env : job_env) :
  hashable j = Some k ->
  k <> KStr "best" -> k <> KStr "1080p" -> k <> KStr "720p" ->
  k <> KStr "video_only" -> k <> KStr "audio_best" -> k <> KStr "audio_low" ->
  let res_best := start_download_process py_float clip_id
                    (with_quality (Some (KStr "best")) data) env in
  exists res : job_result,
    start_download_process_raw py_float clip_id (Some j) data env = Some res
    /\ res = start_download_process py_float clip_id
               (with_quality (Some k) data) env
    /\ fmt (with_quality (Some k) data)
       = "bestvideo[ext=mp4]+bestaudio[ext=m4a]/best[ext=mp4]/best"
    /\ res_cmd res
       = build_cmd (ffmpeg_exe env) clip_id (with_quality (Some k) data)
    /\ nth_error (res_cmd res) 3 = Some "-f"
    /\ nth_error (res_cmd res) 4
       = Some "bestvideo[ext=mp4]+bestaudio[ext=m4a]/best[ext=mp4]/best"
    /\ res_cmd res = res_cmd res_best
    /\ res_after_loop res = res_after_loop res_best
    /\ res_finalized res = res_finalized res_best
    /\ res_last res = res_last res_best
    /\ snd (download_handler py_float clip_id (Some j) data env) = "started".
Proof.
  intros Hk H1 H2 H3 H4 H5 H6 res_best.
  assert (Hfmt : fmt (with_quality (Some k) data)
                 = "bestvideo[ext=mp4]+bestaudio[ext=m4a]/best[ext=mp4]/best").
  { unfold fmt, quality_setting. cbn [quality with_quality].
    cbv beta iota delta [default from_option id].
    destruct k as [|b|n|x|q]; try apply quality_map_best.
    rewrite quality_map_unknown by congruence.
    apply quality_map_best. }
  assert (Hbest : fmt (with_quality (Some (KStr "best")) data)
                  = fmt (with_quality (Some k) data)).
  { rewrite Hfmt. vm_compute. reflexivity. }
  assert (Hcmd : build_cmd (ffmpeg_exe env) clip_id
                   (with_quality (Some (KStr "best")) data)
                 = build_cmd (ffmpeg_exe env) clip_id
                     (with_quality (Some k) data)).
  { unfold build_cmd. rewrite Hbest. reflexivity. }
  exists (start_download_process py_float clip_id
            (with_quality (Some k) data) env).
  split; [unfold start_download_process_raw; rewrite Hk; reflexivity|].
  split; [reflexivity|]. split; [exact Hfmt|].
  subst res_best. unfold start_download_process. rewrite Hcmd.
  change (total_duration_secs py_float
            (with_quality (Some (KStr "best")) data))
    with (total_duration_secs py_float (with_quality (Some k) data)).
  change (title (with_quality (Some (KStr "best")) data))
    with (title (with_quality (Some k) data)).
  assert (Hnth : nth_error (build_cmd (ffmpeg_exe env) clip_id
                              (with_quality (Some k) data)) 3 = Some "-f"
                 /\ nth_error (build_cmd (ffmpeg_exe env) clip_id
                                 (with_quality (Some k) data)) 4
                    = Some "bestvideo[ext=mp4]+bestaudio[ext=m4a]/best[ext=mp4]/best").
  { unfold build_cmd. rewrite Hfmt. split; reflexivity. }
  destruct Hnth as [Hn3 Hn4].
  destruct (spawn_ok env).
  - unfold finalize.
    destruct (status_eqb _ SCancelled); [repeat split; assumption|].
    destruct (returncode env =? 0)%Z; repeat split; assumption.
  - repeat split; assumption.
Qed.

Lemma unknown_quality_uses_best_witness :
  exists res : job_result,
    start_download_process_raw PyFloat.float_dec "job" (Some (JString "4k"))
      plain_submission quiet_env = Some res
    /\ res_cmd res
       = res_cmd (start_download_process PyFloat.float_dec "job"
                    (with_quality (Some (KStr "best")) plain_submission)
                    quiet_env).
Proof.
  destruct (unknown_quality_uses_best PyFloat.float_dec "job"
              (JString "4k") (KStr "4k") plain_submission quiet_env)
    as [res [Hres [_ [_ [_ [_ [_ [Hcmd _]]]]]]]];
    [reflexivity | discriminate ..|].
  exists res. split; assumption.
Defined.

(** C9 as stated fails: a body whose 'quality' is a list, a value that is
    none of the six keys, starts no job.  The lookup of line 250 raises on
    it, before the registry entry and outside the [try], while the handler
    has answered "started". *)
Lemma unhashable_quality_no_job :
  hashable (JArray [JString "best"]) = None
  /\ start_download_process_raw PyFloat.float_dec "job"
       (Some (JArray [JString "best"])) plain_submission quiet_env
     = None
  /\ download_handler PyFloat.float_dec "job"
       (Some (JArray [JString "best"])) plain_submission quiet_env
     = (None, "started").
Proof. repeat split. Qed.

(** ** The library directory: properties *)

Lemma length_append (s t : string) :
  String.length (s ++ t) = String.length s + String.length t.
Proof. induction s as [|c s IH]; simpl; [reflexivity | rewrite IH; reflexivity]. Qed.

Lemma append_assoc (s t u : string) : ((s ++ t) ++ u = s ++ (t ++ u))%string.
Proof.
  induction s as [|c s IH]; [reflexivity|].
  change (String c ((s ++ t) ++ u) = String c (s ++ (t ++ u)))%string.
  f_equal. exact IH.
Qed.

Lemma eqb_length_neq (p s : string) :
  String.length p <> String.length s -> String.eqb p s = false.
Proof. intros H. apply String.eqb_neq. intros ->. apply H. reflexivity. Qed.

(** A name that ends in ".mp4" passes the filter of line 348. *)
Lemma mp4_not_jpg (s : string) : Py.endswith ".jpg" (s ++ ".mp4") = false.
Proof.
  induction s as [|c s IH]; [reflexivity|].
  change (String.eqb ".jpg" (String c (s ++ ".mp4"))
          || Py.endswith ".jpg" (s ++ ".mp4") = false).
  rewrite IH, orb_false_r. apply eqb_length_neq.
  simpl. rewrite length_append. simpl. lia.
Qed.

Lemma mp4_not_json (s : string) : Py.endswith ".json" (s ++ ".mp4") = false.
Proof.
  induction s as [|c s IH]; [reflexivity|].
  change (String.eqb ".json" (String c (s ++ ".mp4"))
          || Py.endswith ".json" (s ++ ".mp4") = false).
  rewrite IH, orb_false_r. destruct s as [|c' s].
  - apply String.eqb_neq. intros H. cbv in H. discriminate H.
  - apply eqb_length_neq. simpl. rewrite length_append. simpl. lia.
Qed.

(** When the scan of lines 346-348 finds nothing, [<id>.mp4] does not
    exist. *)
Lemma find_media_nil_no_mp4 (clip_id : string) (d : fs) :
  find_media clip_id d = [] -> path_exists (clip_id ++ ".mp4") d = false.
Proof.
  unfold find_media, glob_exact. intros H.
  destruct (path_exists (clip_id ++ ".mp4") d); [|reflexivity].
  exfalso. cbn [List.filter] in H. unfold in_library in H.
  rewrite <- append_assoc in H. rewrite <- append_assoc in H.
  rewrite mp4_not_jpg, mp4_not_json in H. discriminate.
Qed.

Lemma read_write_same (name : string) (f : file) (d : fs) :
  read_file name (write_file name f d) = Some f.
Proof.
  unfold read_file, write_file.
  destruct (path_exists name d) eqn:Hex.
  - unfold path_exists, names in Hex. induction d as [|[n g] d IH]; [discriminate|].
    simpl in *. destruct (String.eqb name n) eqn:Hn.
    + simpl. rewrite String.eqb_refl. reflexivity.
    + simpl. rewrite Hn. apply IH. exact Hex.
  - unfold path_exists, names in Hex. induction d as [|[n g] d IH].
    + simpl. rewrite String.eqb_refl. reflexivity.
    + simpl in *. apply orb_false_elim in Hex as [Hn Hex].
      rewrite Hn. apply IH. exact Hex.
Qed.

Lemma names_remove_file (name f : string) (d : fs) :
  In name (names (remove_file f d)) -> In name (names d) /\ name <> f.
Proof.
  unfold names, remove_file. rewrite !in_map_iff.
  intros [e [He Hin]]. apply filter_In in Hin as [Hin Hne].
  split; [exists e; split; assumption|].
  intros ->. subst f. rewrite String.eqb_refl in Hne. discriminate.
Qed.

Lemma names_cleanup_fold (locked : string -> bool) (l : list string) :
  forall (d : fs) (name : string),
    In name (names (fold_left
                      (fun d' f => if locked f then d' else remove_file f d')
                      l d)) ->
    In name (names d) /\ (In name l -> locked name = true).
Proof.
  induction l as [|f l IH]; intros d name H; simpl in *.
  - split; [exact H | intros []].
  - destruct (locked f) eqn:Hf.
    + destruct (IH _ _ H) as [Hd Hl]. split; [exact Hd|].
      intros [->|Hin]; [exact Hf | apply Hl, Hin].
    + destruct (IH _ _ H) as [Hd Hl].
      apply names_remove_file in Hd as [Hd Hne]. split; [exact Hd|].
      intros [Heq|Hin]; [congruence | apply Hl, Hin].
Qed.

(** After the cleanup a file prefixed by the job id is still there only if
    its removal failed; files of other names are only ever fewer. *)
Lemma cleanup_removes (locked : string -> bool) (clip_id : string) (d : fs)
  (name : string) :
  In name (names (cleanup locked clip_id d)) ->
  In name (names d)
  /\ (Py.startswith clip_id name = true -> locked name = true).
Proof.
  unfold cleanup. intros H.
  apply names_cleanup_fold in H as [Hd Hl]. split; [exact Hd|].
  intros Hp. apply Hl. unfold glob_prefix. apply filter_In. split; assumption.
Qed.

Lemma status_eqb_eq (a b : status) : status_eqb a b = true <-> a = b.
Proof. destruct a, b; simpl; split; intros H; congruence. Qed.

Lemma status_eqb_neq (a b : status) : status_eqb a b = false <-> a <> b.
Proof. destruct a, b; simpl; split; intros H; congruence. Qed.

(** ** One job: properties *)

Lemma r_status_cancel_if (b : bool) (r : StatusRecord) :
  r_status (cancel_if b r) = if b then SCancelled else r_status r.
Proof. destruct b; reflexivity. Qed.

(** C1, as the code has it.  The metadata record is written exactly when the
    process was started, the loop ended with a status other than cancelled,
    and the exit code is 0.  When the status that the [finally] block tests
    is error or cancelled, the cleanup has run and every file whose name
    starts with the job id is gone unless its removal failed (the failure is
    swallowed and the file stays); an error status at that test, or a cancel
    seen by the loop, means that no metadata record was written. *)
Theorem metadata_iff_and_cleanup (py_float : string -> option float)
  (clip_id : string) (data : submission) (env : job_env) :
  let res := start_download_process py_float clip_id data env in
  (res_meta res <> None <->
   spawn_ok env = true /\ r_status (res_after_loop res) <> SCancelled
   /\ returncode env = 0%Z)
  /\ (r_status (res_at_cleanup res) = SError
      \/ r_status (res_at_cleanup res) = SCancelled ->
      res_cleaned res = true
      /\ forall name : string,
           In name (names (res_disk res)) ->
           Py.startswith clip_id name = true -> locked env name = true)
  /\ (r_status (res_at_cleanup res) = SError -> res_meta res = None)
  /\ (r_status (res_after_loop res) = SCancelled ->
      res_meta res = None /\ r_status (res_at_cleanup res) = SCancelled).
Proof.
  intros res. subst res. unfold start_download_process.
  set (r1 := if spawn_ok env then supervise _ _ _ _ else _).
  set (fin := if spawn_ok env then finalize _ _ _ _ else _).
  assert (Hfin :
    (fst (fst fin) <> None <->
     spawn_ok env = true /\ r_status r1 <> SCancelled /\ returncode env = 0%Z)
    /\ (r_status (snd fin) = SError -> fst (fst fin) = None)
    /\ (r_status r1 = SCancelled ->
        fst (fst fin) = None /\ r_status (snd fin) = SCancelled)).
  { subst fin r1. destruct (spawn_ok env).
    - unfold finalize.
      destruct (status_eqb _ SCancelled) eqn:Hc.
      + apply status_eqb_eq in Hc. simpl. rewrite Hc.
        repeat split; try congruence; try tauto.
      + apply status_eqb_neq in Hc.
        destruct (returncode env =? 0)%Z eqn:Hrc.
        * apply Z.eqb_eq in Hrc. simpl. repeat split; try congruence.
        * apply Z.eqb_neq in Hrc. simpl. repeat split; try congruence; try tauto.
    - simpl. repeat split; try congruence; try tauto;
        try (intros [H _]; congruence). }
  destruct fin as [[meta d] r2]. simpl in Hfin. simpl.
  destruct Hfin as [Hiff [Herr Hloop]].
  rewrite r_status_cancel_if.
  split; [exact Hiff|]. split; [|split].
  - intros Hst.
    assert (Hcl : status_eqb (if late_cancel_final env then SCancelled
                              else r_status r2) SCancelled
                  || status_eqb (if late_cancel_final env then SCancelled
                                 else r_status r2) SError = true).
    { destruct Hst as [-> | ->]; reflexivity. }
    rewrite Hcl. split; [reflexivity|].
    intros name Hin Hp. apply (cleanup_removes _ _ _ _ Hin). exact Hp.
  - destruct (late_cancel_final env); [discriminate | exact Herr].
  - intros Hc. destruct (Hloop Hc) as [Hm Hr]. split; [exact Hm|].
    rewrite Hr. destruct (late_cancel_final env); reflexivity.
Qed.

Lemma metadata_iff_and_cleanup_witness :
  let res := start_download_process PyFloat.float_dec "job" plain_submission
               {| ffmpeg_exe := false; spawn_ok := true;
                  events := [Line fetch_line; CancelRequest];
                  returncode := (-9)%Z;
                  disk := [("job.mp4.part", Blob); ("other.mp4", Blob)];
                  now := ""; locked := fun _ => false;
                  late_cancel_wait := false; late_cancel_final := false;
                  late_cancel_grace := false |} in
  res_meta res = None /\ r_status (res_at_cleanup res) = SCancelled
  /\ names (res_disk res) = ["other.mp4"].
Proof.
  intros res.
  destruct (metadata_iff_and_cleanup PyFloat.float_dec "job" plain_submission
              {| ffmpeg_exe := false; spawn_ok := true;
                 events := [Line fetch_line; CancelRequest];
                 returncode := (-9)%Z;
                 disk := [("job.mp4.part", Blob); ("other.mp4", Blob)];
                 now := ""; locked := fun _ => false;
                 late_cancel_wait := false; late_cancel_final := false;
                 late_cancel_grace := false |})
    as [_ [_ [_ Hloop]]].
  destruct (Hloop eq_refl) as [Hm Hs].
  split; [exact Hm|]. split; [exact Hs | reflexivity].
Defined.

(** C1 as stated fails.  First job: it exits with 0, the record is written,
    and a cancel request served before the test of line 384 makes the status
    cancelled there and to the end, so a job whose terminal status is
    cancelled did write its metadata record.  Second job: the request comes
    during the grace sleep instead; the status that pollers last see is
    cancelled, and the metadata record and the media file stay on disk. *)
Lemma cancelled_after_finish_keeps_record :
  let late_final :=
    start_download_process PyFloat.float_dec "job" plain_submission
      {| ffmpeg_exe := false; spawn_ok := true; events := [];
         returncode := 0; disk := disk quiet_env;
         now := now quiet_env; locked := locked quiet_env;
         late_cancel_wait := false; late_cancel_final := true;
         late_cancel_grace := false |} in
  let late_grace :=
    start_download_process PyFloat.float_dec "job" plain_submission
      {| ffmpeg_exe := false; spawn_ok := true; events := [];
         returncode := 0; disk := disk quiet_env;
         now := now quiet_env; locked := locked quiet_env;
         late_cancel_wait := false; late_cancel_final := false;
         late_cancel_grace := true |} in
  (r_status (res_at_cleanup late_final) = SCancelled
   /\ r_status (res_last late_final) = SCancelled
   /\ res_meta late_final <> None)
  /\ (r_status (res_last late_grace) = SCancelled
      /\ res_meta late_grace <> None
      /\ names (res_disk late_grace)
         = ["job.mp4"; "job.jpg"; "other.mp4"; "job.json"]).
Proof. vm_compute. repeat split; discriminate. Qed.

Lemma path_exists_write_other (name other : string) (f : file) (d : fs) :
  name <> other ->
  path_exists name (write_file other f d) = path_exists name d.
Proof.
  intros Hne. unfold write_file.
  destruct (path_exists other d).
  - unfold path_exists, names. induction d as [|[n g] d IH]; [reflexivity|].
    simpl. rewrite IH. destruct (String.eqb other n) eqn:Ho; [|reflexivity].
    apply String.eqb_eq in Ho. subst n. simpl.
    apply String.eqb_neq in Hne. rewrite Hne. reflexivity.
  - unfold path_exists, names. rewrite map_app, existsb_app. simpl.
    apply String.eqb_neq in Hne. rewrite Hne. rewrite !orb_false_r.
    reflexivity.
Qed.

Lemma mp4_neq_json (clip_id : string) :
  (clip_id ++ ".mp4")%string <> (clip_id ++ ".json")%string.
Proof.
  intros H. apply (f_equal String.length) in H.
  rewrite !length_append in H. simpl in H. lia.
Qed.

(** C10.  A job whose process was started, that left the loop without a
    cancel and exited with 0, and for which the scan of lines 346-348 finds
    no media file, still writes its metadata record: the [filename] field is
    the default [<id>.mp4], a file that is not in the directory, and the
    status is set to finished with percent "100%".  Unless a cancel request
    comes in before the test of line 384, the record is on disk at the end
    and [<id>.mp4] still is not. *)
Theorem finished_without_media (py_float : string -> option float)
  (clip_id : string) (data : submission) (env : job_env) :
  let res := start_download_process py_float clip_id data env in
  spawn_ok env = true ->
  r_status (res_after_loop res) <> SCancelled ->
  returncode env = 0%Z ->
  find_media clip_id (disk env) = [] ->
  exists meta : metadata,
    res_meta res = Some meta
    /\ m_filename meta = (clip_id ++ ".mp4")%string
    /\ path_exists (clip_id ++ ".mp4") (disk env) = false
    /\ r_status (res_finalized res) = SFinished
    /\ r_percent (res_finalized res) = "100%"
    /\ (late_cancel_final env = false ->
        read_file (clip_id ++ ".json") (res_disk res) = Some (MetaFile meta)
        /\ path_exists (clip_id ++ ".mp4") (res_disk res) = false).
Proof.
  intros res Hs Hc Hrc Hscan. subst res.
  unfold start_download_process in *. rewrite Hs in *.
  set (r1 := supervise _ _ _ _) in *.
  destruct (finalize clip_id data env r1) as [[m d'] r2] eqn:Hfin.
  simpl in Hc. simpl.
  unfold finalize in Hfin. apply status_eqb_neq in Hc.
  rewrite Hc, Hrc in Hfin. cbn [Z.eqb] in Hfin.
  injection Hfin as <- <- <-.
  exists (build_meta clip_id data (disk env) (now env)).
  pose proof (find_media_nil_no_mp4 _ _ Hscan) as Hno.
  split; [reflexivity|]. split.
  { unfold build_meta, media_filename. simpl. rewrite Hscan. reflexivity. }
  split; [exact Hno|]. split; [reflexivity|]. split; [reflexivity|].
  intros ->. simpl. split.
  - apply read_write_same.
  - rewrite path_exists_write_other by apply mp4_neq_json. exact Hno.
Qed.

Lemma finished_without_media_witness :
  exists meta : metadata,
    res_meta (start_download_process PyFloat.float_dec "job" plain_submission
                {| ffmpeg_exe := false; spawn_ok := true;
                   events := [Line fetch_line]; returncode := 0;
                   disk := [("job.jpg", Blob); ("other.mp4", Blob)];
                   now := "2024-01-01T00:00:00"; locked := fun _ => false;
                   late_cancel_wait := false; late_cancel_final := false;
                   late_cancel_grace := false |})
    = Some meta
    /\ m_filename meta = "job.mp4".
Proof.
  destruct (finished_without_media PyFloat.float_dec "job" plain_submission
              {| ffmpeg_exe := false; spawn_ok := true;
                 events := [Line fetch_line]; returncode := 0;
                 disk := [("job.jpg", Blob); ("other.mp4", Blob)];
                 now := "2024-01-01T00:00:00"; locked := fun _ => false;
                 late_cancel_wait := false; late_cancel_final := false;
                 late_cancel_grace := false |})
    as [meta [Hm [Hf _]]];
    [reflexivity | discriminate | reflexivity | reflexivity |].
  exists meta. split; [exact Hm | exact Hf].
Defined.

(** ** [delete_clip]: properties *)

Lemma remove_retry_all_locked (oracle : nat -> rm_outcome) (budget : nat) :
  forall i : nat,
    (forall j : nat, i <= j < i + budget -> oracle j = RmPermissionError) ->
    remove_retry oracle budget i = (Exhausted, budget).
Proof.
  induction budget as [|b IH]; intros i H; simpl; [reflexivity|].
  rewrite (H i) by lia. rewrite (IH (S i)); [reflexivity|].
  intros j Hj. apply H. lia.
Qed.

Lemma remove_retry_bounded (oracle : nat -> rm_outcome) (budget : nat) :
  forall i : nat, snd (remove_retry oracle budget i) <= budget.
Proof.
  induction budget as [|b IH]; intros i; simpl; [lia|].
  destruct (oracle i); simpl; try lia.
  specialize (IH (S i)). destruct (remove_retry oracle b (S i)). simpl in *. lia.
Qed.

Lemma remove_retry_no_success (oracle : nat -> rm_outcome) (budget : nat) :
  forall i : nat,
    (forall j : nat, i <= j < i + budget -> oracle j <> RmOk) ->
    fst (remove_retry oracle budget i) <> Deleted.
Proof.
  induction budget as [|b IH]; intros i H; simpl; [discriminate|].
  destruct (oracle i) eqn:Ho.
  - exfalso. apply (H i); [lia | exact Ho].
  - assert (Hrest : fst (remove_retry oracle b (S i)) <> Deleted).
    { apply IH. intros j Hj. apply H. lia. }
    destruct (remove_retry oracle b (S i)). exact Hrest.
  - discriminate.
Qed.

Lemma remove_retry_within (oracle : nat -> rm_outcome) (k : nat) :
  forall budget i : nat,
    k < budget ->
    (forall j : nat, i <= j < i + k -> oracle j = RmPermissionError) ->
    oracle (i + k) = RmOk ->
    remove_retry oracle budget i = (Deleted, S k).
Proof.
  induction k as [|k IH]; intros budget i Hk Hlocked Hok;
    (destruct budget as [|b]; [lia|]); simpl.
  - rewrite Nat.add_0_r in Hok. rewrite Hok. reflexivity.
  - rewrite (Hlocked i) by lia. rewrite (IH b (S i)); [reflexivity | lia | |].
    + intros j Hj. apply Hlocked. lia.
    + rewrite <- Hok. f_equal. lia.
Qed.

Lemma remove_retry_calls_once (oracle : nat -> rm_outcome) (budget i : nat) :
  0 < budget -> 1 <= snd (remove_retry oracle budget i).
Proof.
  destruct budget as [|b]; [lia|]. intros _. simpl.
  destruct (oracle i); simpl; try lia.
  destruct (remove_retry oracle b (S i)). simpl. lia.
Qed.

(** What [delete_clip] returns, without the count of calls. *)
Lemma delete_clip_unfold (env : delete_env) (clip_id : string) (d : fs) :
  delete_clip env clip_id d
  = match read_file (clip_id ++ ".json") d with
    | None => (false, d)
    | Some Blob => (false, d)
    | Some (MetaFile meta) =>
        match
          (if String.eqb (m_filename meta) ""
              || path_exists (m_filename meta) d
           then match fst (remove_retry (rm_video env) RETRIES 0) with
                | Deleted => Some (remove_file (m_filename meta) d)
                | Exhausted | Raised => None
                end
           else Some d)
        with
        | None => (false, d)
        | Some d1 =>
            if rm_meta_ok env
            then (true,
                  remove_file (clip_id ++ ".json")
                    (if path_exists (clip_id ++ ".jpg") d1 && rm_thumb_ok env
                     then remove_file (clip_id ++ ".jpg") d1 else d1))
            else (false,
                  if path_exists (clip_id ++ ".jpg") d1 && rm_thumb_ok env
                  then remove_file (clip_id ++ ".jpg") d1 else d1)
        end
    end.
Proof.
  unfold delete_clip, delete_clip_run.
  destruct (read_file (clip_id ++ ".json") d) as [[|meta]|]; try reflexivity.
  destruct (String.eqb (m_filename meta) ""
            || path_exists (m_filename meta) d)%bool.
  - destruct (fst (remove_retry (rm_video env) RETRIES 0));
      cbn [fst snd]; try reflexivity.
    destruct (rm_meta_ok env); reflexivity.
  - cbn [fst snd]. destruct (rm_meta_ok env); reflexivity.
Qed.

(** The number of [os.remove(vid_path)] calls of a [delete_clip]. *)
Lemma delete_clip_calls (env : delete_env) (clip_id : string) (d : fs) :
  snd (delete_clip_run env clip_id d)
  = match read_file (clip_id ++ ".json") d with
    | Some (MetaFile meta) =>
        if String.eqb (m_filename meta) "" || path_exists (m_filename meta) d
        then snd (remove_retry (rm_video env) RETRIES 0)
        else 0
    | _ => 0
    end.
Proof.
  unfold delete_clip_run.
  destruct (read_file (clip_id ++ ".json") d) as [[|meta]|]; try reflexivity.
  destruct (String.eqb (m_filename meta) ""
            || path_exists (m_filename meta) d)%bool.
  - destruct (fst (remove_retry (rm_video env) RETRIES 0));
      cbn [fst snd]; try reflexivity;
      destruct (rm_meta_ok env); reflexivity.
  - cbn [fst snd]. destruct (rm_meta_ok env); reflexivity.
Qed.

(** C8.  [delete_clip] on a finished clip whose media file cannot be
    removed.  The operation calls [os.remove] on the media file 20 times at
    most, whatever the system answers and whatever the clip, and exactly 20
    times when each call raises [PermissionError]; it does go on that far,
    since a call that succeeds after [k < 20] such failures, the last
    attempt included, makes it return [True] after [k + 1] calls.  When no
    attempt succeeds it returns [False] without raising, the handler
    answers 500 "Could not delete file (locked)" in place of "deleted", and
    the directory is as before, metadata record included. *)
Theorem delete_clip_locked (env : delete_env) (clip_id : string) (d : fs)
  (meta : metadata) :
  read_file (clip_id ++ ".json") d = Some (MetaFile meta) ->
  path_exists (m_filename meta) d = true ->
  (forall i : nat, i < RETRIES -> rm_video env i <> RmOk) ->
  RETRIES = 20
  /\ (forall (env' : delete_env) (clip_id' : string) (d' : fs),
         snd (delete_clip_run env' clip_id' d') <= RETRIES)
  /\ 1 <= snd (delete_clip_run env clip_id d)
  /\ ((forall i : nat, i < RETRIES -> rm_video env i = RmPermissionError) ->
      delete_clip_run env clip_id d = (false, d, RETRIES))
  /\ (forall (env' : delete_env) (k : nat),
         k < RETRIES ->
         (forall j : nat, j < k -> rm_video env' j = RmPermissionError) ->
         rm_video env' k = RmOk ->
         rm_meta_ok env' = true ->
         fst (delete_clip env' clip_id d) = true
         /\ snd (delete_clip_run env' clip_id d) = S k)
  /\ delete_clip env clip_id d = (false, d)
  /\ delete_handler env clip_id d
     = ((500%Z, "Could not delete file (locked)"), d)
  /\ read_file (clip_id ++ ".json") (snd (delete_clip env clip_id d))
     = Some (MetaFile meta).
Proof.
  intros Hmeta Hvid Hfail.
  assert (Hretry : fst (remove_retry (rm_video env) RETRIES 0) <> Deleted).
  { apply remove_retry_no_success. intros j Hj. apply Hfail. lia. }
  assert (Hdel : delete_clip env clip_id d = (false, d)).
  { rewrite delete_clip_unfold. rewrite Hmeta, Hvid, orb_true_r.
    destruct (fst (remove_retry (rm_video env) RETRIES 0));
      [congruence | reflexivity | reflexivity]. }
  split; [reflexivity|]. split.
  { intros env' clip_id' d'. rewrite delete_clip_calls.
    destruct (read_file (clip_id' ++ ".json") d') as [[|m]|]; try lia.
    destruct (_ || _)%bool; [apply remove_retry_bounded | lia]. }
  split.
  { rewrite delete_clip_calls, Hmeta, Hvid, orb_true_r.
    apply remove_retry_calls_once. unfold RETRIES. lia. }
  split.
  { intros Hlocked. unfold delete_clip_run.
    rewrite Hmeta, Hvid, orb_true_r.
    rewrite (remove_retry_all_locked (rm_video env) RETRIES 0)
      by (intros j Hj; apply Hlocked; lia).
    reflexivity. }
  split.
  { intros env' k Hk Hlocked Hok Hrm.
    assert (Hr : remove_retry (rm_video env') RETRIES 0 = (Deleted, S k)).
    { apply remove_retry_within; [exact Hk | | exact Hok].
      intros j Hj. apply Hlocked. lia. }
    split.
    - rewrite delete_clip_unfold, Hmeta, Hvid, orb_true_r, Hr, Hrm.
      reflexivity.
    - rewrite delete_clip_calls, Hmeta, Hvid, orb_true_r, Hr. reflexivity. }
  split; [exact Hdel|]. split.
  - unfold delete_handler. rewrite Hdel. reflexivity.
  - rewrite Hdel. exact Hmeta.
Qed.

Lemma delete_clip_locked_witness :
  let meta := build_meta "job" plain_submission [("job.mp4", Blob)] "2024" in
  let d := [("job.mp4", Blob); ("job.json", MetaFile meta)] in
  let env := {| rm_video := fun _ => RmPermissionError;
                rm_thumb_ok := true; rm_meta_ok := true |} in
  delete_clip_run env "job" d = (false, d, 20)
  /\ delete_clip env "job" d = (false, d)
  /\ delete_handler env "job" d
     = ((500%Z, "Could not delete file (locked)"), d).
Proof.
  intros meta d env.
  destruct (delete_clip_locked env "job" d meta)
    as [_ [_ [_ [Hrun [_ [Hdel [Hh _]]]]]]];
    [reflexivity | reflexivity | intros i _; discriminate |].
  split; [apply Hrun; intros i _; reflexivity|].
  split; [exact Hdel | exact Hh].
Defined.

(** ** The matcher: a match fills every group *)

Lemma match_at_marks (p : regex) :
  forall (s : string) (marks r : list string),
    match_at p s marks = Some r ->
    length r = boundaries p + length marks.
Proof.
  induction p as [|it p IH]; intros s marks r H.
  - simpl in H. injection H as <-. reflexivity.
  - destruct it; simpl in H; simpl boundaries.
    + destruct s as [|c s]; [discriminate|].
      destruct (in_class k c); [|discriminate]. apply (IH _ _ _ H).
    + destruct s as [|c s]; [apply (IH _ _ _ H)|].
      destruct (in_class k c); [|apply (IH _ _ _ H)].
      destruct (match_at p s marks) as [r'|] eqn:Hr.
      * injection H as <-. apply (IH _ _ _ Hr).
      * apply (IH _ _ _ H).
    + revert H. induction s as [|c s IHs]; intros H.
      * apply (IH _ _ _ H).
      * destruct (in_class k c); [|apply (IH _ _ _ H)].
        match type of H with
        | match ?g with _ => _ end = _ => destruct g as [r'|] eqn:Hr
        end.
        -- injection H as <-. apply IHs. reflexivity.
        -- apply (IH _ _ _ H).
    + revert H. induction s as [|c s IHs]; intros H.
      * destruct (match_at p "" marks) as [r'|] eqn:Hr; [|discriminate].
        injection H as <-. apply (IH _ _ _ Hr).
      * destruct (match_at p (String c s) marks) as [r'|] eqn:Hr.
        -- injection H as <-. apply (IH _ _ _ Hr).
        -- destruct (in_class k c); [|discriminate]. apply IHs. exact H.
    + rewrite (IH _ _ _ H). simpl. lia.
    + rewrite (IH _ _ _ H). simpl. lia.
Qed.

Lemma search_marks_length (p : regex) (s : string) (r : list string) :
  search_marks p s = Some r -> length r = boundaries p.
Proof.
  induction s as [|c s IH]; simpl; intros H.
  - destruct (match_at p "" []) as [r'|] eqn:Hr; [|discriminate].
    injection H as <-. rewrite (match_at_marks _ _ _ _ Hr). simpl. lia.
  - destruct (match_at p (String c s) []) as [r'|] eqn:Hr.
    + injection H as <-. rewrite (match_at_marks _ _ _ _ Hr). simpl. lia.
    + apply IH, H.
Qed.

(** [progress_search] is [None] only when the pattern has no match: a match
    always comes with its four groups. *)
Lemma progress_search_none (s : string) :
  progress_search s = None <-> Re.search PROGRESS_REGEX s = None.
Proof.
  unfold progress_search, Re.search.
  destruct (search_marks PROGRESS_REGEX s) as [r|] eqn:Hr; simpl; [|tauto].
  apply search_marks_length in Hr.
  change (boundaries PROGRESS_REGEX) with 8 in Hr.
  do 9 (destruct r as [|? r]; try discriminate Hr).
  simpl. split; discriminate.
Qed.

(** Likewise for the merge pattern and its three groups. *)
Lemma ffmpeg_search_none (s : string) :
  ffmpeg_search s = None <-> Re.search FFMPEG_REGEX s = None.
Proof.
  unfold ffmpeg_search, Re.search.
  destruct (search_marks FFMPEG_REGEX s) as [r|] eqn:Hr; simpl; [|tauto].
  apply search_marks_length in Hr.
  change (boundaries FFMPEG_REGEX) with 6 in Hr.
  do 7 (destruct r as [|? r]; try discriminate Hr).
  simpl. split; discriminate.
Qed.

(** ** Files of other names are left alone *)

Lemma read_file_remove_other (name f : string) (d : fs) :
  name <> f -> read_file name (remove_file f d) = read_file name d.
Proof.
  intros Hne. unfold read_file, remove_file. f_equal.
  induction d as [|[n g] d IH]; [reflexivity|]. simpl.
  destruct (String.eqb f n) eqn:Hf; simpl.
  - apply String.eqb_eq in Hf. subst n.
    apply String.eqb_neq in Hne. rewrite Hne. exact IH.
  - destruct (String.eqb name n); [reflexivity | exact IH].
Qed.

Lemma read_file_write_other (name other : string) (f : file) (d : fs) :
  name <> other -> read_file name (write_file other f d) = read_file name d.
Proof.
  intros Hne. unfold read_file, write_file. f_equal.
  apply String.eqb_neq in Hne.
  destruct (path_exists other d).
  - induction d as [|[n g] d IH]; [reflexivity|]. simpl.
    destruct (String.eqb other n) eqn:Ho; simpl.
    + apply String.eqb_eq in Ho. subst n. rewrite Hne. exact IH.
    + destruct (String.eqb name n); [reflexivity | exact IH].
  - induction d as [|[n g] d IH]; simpl.
    + rewrite Hne. reflexivity.
    + destruct (String.eqb name n); [reflexivity | exact IH].
Qed.

Lemma read_file_none_iff (name : string) (d : fs) :
  read_file name d = None <-> path_exists name d = false.
Proof.
  unfold read_file, path_exists, names.
  induction d as [|[n g] d IH]; simpl; [tauto|].
  destruct (String.eqb name n); simpl; [split; discriminate | exact IH].
Qed.

Lemma startswith_append (p s : string) : Py.startswith p (p ++ s) = true.
Proof.
  induction p as [|c p IH]; [reflexivity|].
  change (Ascii.eqb c c && Py.startswith p (p ++ s) = true).
  rewrite Ascii.eqb_refl, IH. reflexivity.
Qed.

Lemma cleanup_fold_keeps (locked : string -> bool) (name : string)
  (l : list string) :
  forall d : fs,
    ~ In name l ->
    read_file name
      (fold_left (fun d' f => if locked f then d' else remove_file f d') l d)
    = read_file name d.
Proof.
  induction l as [|f l IH]; intros d Hnot; simpl; [reflexivity|].
  rewrite IH by (intros H; apply Hnot; right; exact H).
  destruct (locked f); [reflexivity|].
  apply read_file_remove_other. intros ->. apply Hnot. left. reflexivity.
Qed.

Lemma cleanup_keeps_others (locked : string -> bool) (clip_id : string)
  (d : fs) (name : string) :
  Py.startswith clip_id name = false ->
  read_file name (cleanup locked clip_id d) = read_file name d.
Proof.
  intros Hp. unfold cleanup. apply cleanup_fold_keeps.
  unfold glob_prefix. intros Hin. apply filter_In in Hin as [_ Hin].
  congruence.
Qed.

(** X1.  Whatever happens to a job (success, error, cancel, failed
    removals, a cancel that comes late), a file whose name does not start
    with the job id is left exactly as the process left it. *)
Theorem job_keeps_other_files (py_float : string -> option float)
  (clip_id : string) (data : submission) (env : job_env) (name : string) :
  Py.startswith clip_id name = false ->
  read_file name (res_disk (start_download_process py_float clip_id data env))
  = read_file name (disk env).
Proof.
  intros Hp.
  assert (Hne : name <> (clip_id ++ ".json")%string).
  { intros ->. rewrite startswith_append in Hp. discriminate. }
  unfold start_download_process.
  set (r1 := if spawn_ok env then supervise _ _ _ _ else _).
  assert (Hfin : forall m d r,
             (if spawn_ok env then finalize clip_id data env r1
              else (None, disk env, set_status SError r1)) = (m, d, r) ->
             read_file name d = read_file name (disk env)).
  { intros m d r. destruct (spawn_ok env).
    - unfold finalize. destruct (status_eqb _ SCancelled).
      + intros [= _ <- _]. reflexivity.
      + destruct (returncode env =? 0)%Z; intros [= _ <- _];
          [apply read_file_write_other; exact Hne | reflexivity].
    - intros [= _ <- _]. reflexivity. }
  destruct (if spawn_ok env then finalize clip_id data env r1 else _)
    as [[m d] r2] eqn:Hf.
  simpl. specialize (Hfin m d r2 eq_refl).
  destruct (_ || _); [|exact Hfin].
  rewrite cleanup_keeps_others by exact Hp. exact Hfin.
Qed.

Lemma job_keeps_other_files_witness :
  read_file "other.mp4"
    (res_disk (start_download_process PyFloat.float_dec "job"
                 plain_submission quiet_env))
  = Some Blob.
Proof.
  rewrite (job_keeps_other_files PyFloat.float_dec "job" plain_submission
             quiet_env "other.mp4"); reflexivity.
Defined.

(** The directory after a job whose status at the test of line 384 is
    finished: the one the process left, with the metadata record written. *)
Lemma finished_disk (py_float : string -> option float)
  (clip_id : string) (data : submission) (env : job_env) :
  let res := start_download_process py_float clip_id data env in
  r_status (res_at_cleanup res) = SFinished ->
  res_cleaned res = false
  /\ res_meta res = Some (build_meta clip_id data (disk env) (now env))
  /\ res_disk res
     = write_file (clip_id ++ ".json")
         (MetaFile (build_meta clip_id data (disk env) (now env)))
         (disk env).
Proof.
  intros res. subst res. unfold start_download_process.
  set (r1 := if spawn_ok env then supervise _ _ _ _ else _).
  destruct (spawn_ok env).
  - unfold finalize. destruct (status_eqb (r_status r1) SCancelled) eqn:Hc.
    + apply status_eqb_eq in Hc. simpl. rewrite r_status_cancel_if, Hc.
      destruct (late_cancel_final env); discriminate.
    + destruct (returncode env =? 0)%Z; simpl; rewrite r_status_cancel_if;
        destruct (late_cancel_final env); simpl; try discriminate.
      intros _. repeat split.
  - simpl. rewrite r_status_cancel_if.
    destruct (late_cancel_final env); discriminate.
Qed.

(** X2.  When the status that the [finally] block tests is finished, no
    cleanup runs: the metadata record of the job is on disk with the content
    that was written, and every other file, the media of the job included,
    is as the process left it. *)
Theorem finished_job_keeps_everything (py_float : string -> option float)
  (clip_id : string) (data : submission) (env : job_env) :
  let res := start_download_process py_float clip_id data env in
  r_status (res_at_cleanup res) = SFinished ->
  res_cleaned res = false
  /\ res_meta res = Some (build_meta clip_id data (disk env) (now env))
  /\ read_file (clip_id ++ ".json") (res_disk res)
     = Some (MetaFile (build_meta clip_id data (disk env) (now env)))
  /\ forall name : string,
       name <> (clip_id ++ ".json")%string ->
       read_file name (res_disk res) = read_file name (disk env).
Proof.
  intros res Hfin.
  destruct (finished_disk py_float clip_id data env Hfin)
    as [Hclean [Hmeta Hdisk]].
  fold res in Hclean, Hmeta, Hdisk.
  split; [exact Hclean|]. split; [exact Hmeta|]. rewrite Hdisk.
  split; [apply read_write_same|].
  intros name Hne. apply read_file_write_other. exact Hne.
Qed.

Lemma finished_job_keeps_everything_witness :
  read_file "job.mp4"
    (res_disk (start_download_process PyFloat.float_dec "job"
                 plain_submission quiet_env))
  = Some Blob.
Proof.
  destruct (finished_job_keeps_everything PyFloat.float_dec "job"
              plain_submission quiet_env eq_refl) as [_ [_ [_ H]]].
  rewrite H; [reflexivity | discriminate].
Defined.

(** ** The supervision loop: properties *)

Lemma handle_line_keeps (py_float : string -> option float) (total : float)
  (r : StatusRecord) (line : string) :
  r_status (handle_line py_float total r line) = r_status r
  /\ r_id (handle_line py_float total r line) = r_id r
  /\ r_title (handle_line py_float total r line) = r_title r.
Proof.
  unfold handle_line.
  destruct (progress_search _) as [[[[p sz] sp] e]|]; [repeat split|].
  destruct (Py.contains _ _); [|repeat split].
  destruct (ffmpeg_search _) as [[[sz t] sp]|]; repeat split.
Qed.

Lemma supervise_cancelled (py_float : string -> option float) (total : float)
  (evs : list event) (r : StatusRecord) :
  r_status r = SCancelled -> supervise py_float total evs r = r.
Proof. intros H. destruct evs; simpl; rewrite H; reflexivity. Qed.

Lemma supervise_keeps_id (py_float : string -> option float) (total : float)
  (evs : list event) :
  forall r : StatusRecord, r_id (supervise py_float total evs r) = r_id r.
Proof.
  induction evs as [|ev evs IH]; intros r; simpl;
    destruct (status_eqb (r_status r) SCancelled); try reflexivity.
  destruct ev; rewrite IH; [|reflexivity|reflexivity].
  apply (handle_line_keeps py_float total r line).
Qed.

(** X3.  Output lines never touch the status, the id or the title of the
    record: a loop that starts on a record that is not cancelled ends with
    status cancelled exactly when a cancel request was served during it, and
    with the status it started with otherwise. *)
Theorem supervise_status (py_float : string -> option float) (total : float)
  (evs : list event) :
  forall r : StatusRecord,
    r_status r <> SCancelled ->
    let r' := supervise py_float total evs r in
    (r_status r' = SCancelled <-> In CancelRequest evs)
    /\ (~ In CancelRequest evs -> r_status r' = r_status r)
    /\ r_id r' = r_id r /\ r_title r' = r_title r.
Proof.
  induction evs as [|ev evs IH]; intros r Hr; simpl.
  - apply status_eqb_neq in Hr. rewrite Hr.
    apply status_eqb_neq in Hr. simpl. tauto.
  - pose proof Hr as Hb. apply status_eqb_neq in Hb. rewrite Hb.
    destruct ev as [line| |].
    + destruct (handle_line_keeps py_float total r line) as [Hs [Hi Ht]].
      assert (Hr' : r_status (handle_line py_float total r line)
                    <> SCancelled) by (rewrite Hs; exact Hr).
      destruct (IH _ Hr') as [Hiff [Hsame [Hid Htitle]]].
      rewrite Hs in Hsame. rewrite Hi in Hid. rewrite Ht in Htitle.
      split; [|split; [|split; assumption]].
      * rewrite Hiff. split; [intros H; right; exact H|].
        intros [H|H]; [discriminate | exact H].
      * intros Hn. apply Hsame. intros H. apply Hn. right. exact H.
    + destruct (IH _ Hr) as [Hiff [Hsame [Hid Htitle]]].
      split; [|split; [|split; assumption]].
      * rewrite Hiff. split; [intros H; right; exact H|].
        intros [H|H]; [discriminate | exact H].
      * intros Hn. apply Hsame. intros H. apply Hn. right. exact H.
    + rewrite supervise_cancelled by reflexivity. simpl.
      split; [split; [intros _; left; reflexivity | reflexivity]|].
      split; [|split; reflexivity].
      intros Hn. exfalso. apply Hn. left. reflexivity.
Qed.

Lemma supervise_status_witness :
  r_status (supervise PyFloat.float_dec 0%float
              [Line fetch_line; CancelRequest; Line merge_line]
              (initial_record "job" "Unknown"))
  = SCancelled.
Proof.
  apply (supervise_status PyFloat.float_dec 0%float
           [Line fetch_line; CancelRequest; Line merge_line]
           (initial_record "job" "Unknown")); [discriminate|].
  simpl. auto.
Defined.

(** ** The end of a job: properties *)

(** X5.  Every job ends in a terminal status, at the assignment of lines
    343-380 and when its entry is removed: the record is never left at
    downloading.  That status is finished exactly when the metadata record
    was written, and a cancel served afterwards is the only thing that can
    change it. *)
Theorem job_ends_terminal (py_float : string -> option float)
  (clip_id : string) (data : submission) (env : job_env) :
  let res := start_download_process py_float clip_id data env in
  terminal (r_status (res_finalized res)) = true
  /\ terminal (r_status (res_last res)) = true
  /\ (r_status (res_finalized res) = SFinished <-> res_meta res <> None)
  /\ (r_status (res_last res) = r_status (res_finalized res)
      \/ r_status (res_last res) = SCancelled)
  /\ r_id (res_last res) = clip_id.
Proof.
  intros res. subst res. unfold start_download_process.
  set (r0 := initial_record _ _).
  assert (Hid : forall evs, r_id (supervise py_float
                   (total_duration_secs py_float data) evs r0) = clip_id).
  { intros evs. apply (supervise_keeps_id py_float _ evs r0). }
  destruct (spawn_ok env).
  - unfold finalize.
    destruct (status_eqb _ SCancelled) eqn:Hc.
    + apply status_eqb_eq in Hc. simpl. rewrite !r_status_cancel_if, Hc.
      repeat split; try discriminate; try congruence.
      * destruct (late_cancel_grace env), (late_cancel_final env); reflexivity.
      * destruct (late_cancel_grace env), (late_cancel_final env); auto.
      * destruct (late_cancel_grace env), (late_cancel_final env);
          apply Hid.
    + destruct (returncode env =? 0)%Z; simpl; rewrite !r_status_cancel_if;
        (repeat split; try discriminate; try congruence;
         [ destruct (late_cancel_grace env), (late_cancel_final env);
           reflexivity
         | destruct (late_cancel_grace env), (late_cancel_final env); auto
         | destruct (late_cancel_grace env), (late_cancel_final env),
             (late_cancel_wait env); apply Hid ]).
  - simpl. rewrite !r_status_cancel_if.
    repeat split; try discriminate; try congruence.
    + destruct (late_cancel_grace env), (late_cancel_final env); reflexivity.
    + destruct (late_cancel_grace env), (late_cancel_final env); auto.
    + destruct (late_cancel_grace env), (late_cancel_final env); reflexivity.
Qed.

(** X6.  The percent of a merge line never exceeds 100: with a positive
    expected duration the number that is printed is not above 100, however
    far the elapsed time runs past the expected duration. *)
Theorem merge_percent_bounded (py_float : string -> option float)
  (total : float) (time_str : string) :
  (0 <? total)%float = true ->
  exists pct : float,
    merge_percent py_float total time_str
    = (PyFloat.format_1f pct ++ "%")%string
    /\ (100 <? pct)%float = false
    /\ (pct = 100%float
        \/ pct = (parse_time_str py_float time_str / total * 100)%float).
Proof.
  intros Hpos. unfold merge_percent. rewrite Hpos.
  destruct (100 <? parse_time_str py_float time_str / total * 100)%float
    eqn:Hover.
  - exists 100%float. split; [reflexivity|]. split; [reflexivity|].
    left. reflexivity.
  - eexists. split; [reflexivity|]. split; [exact Hover|].
    right. reflexivity.
Qed.

Lemma merge_percent_bounded_witness :
  exists pct : float,
    merge_percent PyFloat.float_dec 60%float "00:02:00"
    = (PyFloat.format_1f pct ++ "%")%string
    /\ (100 <? pct)%float = false.
Proof.
  destruct (merge_percent_bounded PyFloat.float_dec 60%float "00:02:00"
              eq_refl) as [pct [H1 [H2 _]]].
  exists pct. split; assumption.
Defined.

(** ** The artifact scan: properties *)

Lemma endswith_append (p s : string) : Py.endswith p (s ++ p) = true.
Proof.
  induction s as [|c s IH].
  - destruct p; simpl; rewrite ?Ascii.eqb_refl, ?String.eqb_refl; reflexivity.
  - change (String.eqb p (String c (s ++ p)) || Py.endswith p (s ++ p) = true).
    rewrite IH. apply orb_true_r.
Qed.

Lemma append_inj_l (p s t : string) : (p ++ s = p ++ t)%string -> s = t.
Proof.
  induction p as [|c p IH]; simpl; intros H; [exact H|].
  injection H as H. apply IH, H.
Qed.

Lemma path_exists_In (name : string) (d : fs) :
  path_exists name d = true <-> In name (names d).
Proof.
  unfold path_exists. rewrite existsb_exists. split.
  - intros [x [Hin Heq]]. apply String.eqb_eq in Heq. subst x. exact Hin.
  - intros Hin. exists name. split; [exact Hin | apply String.eqb_refl].
Qed.

(** What the scan of lines 346-348 can return: [<id>.mp4] or a file of the
    directory that starts with [<id>.], and in either case a path that ends
    neither in ".jpg" nor in ".json". *)
Lemma find_media_In (clip_id : string) (d : fs) (f : string) :
  In f (find_media clip_id d) ->
  (f = (clip_id ++ ".mp4")%string
   \/ (In f (names d) /\ Py.startswith (clip_id ++ ".") f = true))
  /\ Py.endswith ".jpg" (in_library f) = false
  /\ Py.endswith ".json" (in_library f) = false.
Proof.
  intros Hf. unfold find_media in Hf.
  apply filter_In in Hf as [Hf Hside].
  apply andb_true_iff in Hside as [Hj Hs].
  apply negb_true_iff in Hj. apply negb_true_iff in Hs.
  split; [|split; assumption].
  unfold glob_exact in Hf. destruct (path_exists (clip_id ++ ".mp4") d).
  - left. destruct Hf as [<-|[]]. reflexivity.
  - right. unfold glob_prefix in Hf. apply filter_In in Hf. exact Hf.
Qed.

Lemma media_filename_not_sidecar (clip_id : string) (d : fs) (ext : string) :
  ext = ".jpg" \/ ext = ".json" ->
  media_filename clip_id d <> (clip_id ++ ext)%string.
Proof.
  intros Hext Heq. unfold media_filename in Heq.
  destruct (find_media clip_id d) as [|f l] eqn:Hfm.
  - apply append_inj_l in Heq. destruct Hext; subst ext; discriminate.
  - subst f.
    destruct (find_media_In clip_id d (clip_id ++ ext)) as [_ [Hj Hs]];
      [rewrite Hfm; left; reflexivity|].
    unfold in_library in Hj, Hs.
    rewrite <- append_assoc in Hj, Hs. rewrite <- append_assoc in Hj, Hs.
    destruct Hext; subst ext; rewrite endswith_append in *; discriminate.
Qed.

(** X7.  The file name that the artifact scan puts in the metadata record:
    [<id>.mp4] whenever that file exists, whatever else the process left;
    otherwise the default [<id>.mp4] or a file of the directory whose name
    starts with [<id>.]; and never the thumbnail [<id>.jpg] nor the record
    [<id>.json] itself. *)
Theorem media_filename_choice (clip_id : string) (d : fs) :
  (path_exists (clip_id ++ ".mp4") d = true ->
   media_filename clip_id d = (clip_id ++ ".mp4")%string)
  /\ (media_filename clip_id d = (clip_id ++ ".mp4")%string
      \/ (path_exists (media_filename clip_id d) d = true
          /\ Py.startswith (clip_id ++ ".") (media_filename clip_id d) = true))
  /\ media_filename clip_id d <> (clip_id ++ ".jpg")%string
  /\ media_filename clip_id d <> (clip_id ++ ".json")%string.
Proof.
  split; [|split; [|split]].
  - intros Hex. unfold media_filename, find_media, glob_exact.
    rewrite Hex. cbn [List.filter]. unfold in_library.
    rewrite <- append_assoc. rewrite <- append_assoc.
    rewrite mp4_not_jpg, mp4_not_json. reflexivity.
  - unfold media_filename. destruct (find_media clip_id d) as [|f l] eqn:Hfm;
      [left; reflexivity|].
    destruct (find_media_In clip_id d f) as [[->|[Hn Hp]] _];
      [rewrite Hfm; left; reflexivity | left; reflexivity |].
    right. split; [apply path_exists_In; exact Hn | exact Hp].
  - apply media_filename_not_sidecar. left. reflexivity.
  - apply media_filename_not_sidecar. right. reflexivity.
Qed.

Lemma media_filename_choice_witness :
  media_filename "job" [("job.webm", Blob); ("job.mp4", Blob)] = "job.mp4".
Proof.
  apply (proj1 (media_filename_choice "job"
                  [("job.webm", Blob); ("job.mp4", Blob)])).
  reflexivity.
Defined.

(** ** [delete_clip]: what a call removes and what it keeps *)

Lemma path_exists_remove_same (f : string) (d : fs) :
  path_exists f (remove_file f d) = false.
Proof.
  destruct (path_exists f (remove_file f d)) eqn:H; [|reflexivity].
  apply path_exists_In, names_remove_file in H as [_ H]. congruence.
Qed.

Lemma path_exists_remove_false (name f : string) (d : fs) :
  path_exists name d = false -> path_exists name (remove_file f d) = false.
Proof.
  intros Hno. destruct (path_exists name (remove_file f d)) eqn:H;
    [|reflexivity].
  apply path_exists_In, names_remove_file in H as [H _].
  apply path_exists_In in H. congruence.
Qed.

(** X8.  When [delete_clip] returns [True], the clip is gone: there was a
    metadata record for the id, and afterwards neither the record nor the
    media file it named is in the directory (nor the thumbnail, unless its
    removal failed); no file has appeared, and the library listing has no
    entry for the record any more. *)
Theorem delete_clip_success (env : delete_env) (clip_id : string)
  (d d' : fs) :
  delete_clip env clip_id d = (true, d') ->
  exists meta : metadata,
    read_file (clip_id ++ ".json") d = Some (MetaFile meta)
    /\ path_exists (clip_id ++ ".json") d' = false
    /\ path_exists (m_filename meta) d' = false
    /\ (rm_thumb_ok env = true -> path_exists (clip_id ++ ".jpg") d' = false)
    /\ (forall name : string, In name (names d') -> In name (names d))
    /\ (forall getsize : string -> Z,
           library_entry getsize d' (clip_id ++ ".json") = None).
Proof.
  rewrite delete_clip_unfold. intros H.
  destruct (read_file (clip_id ++ ".json") d) as [[|meta]|] eqn:Hmeta;
    try discriminate.
  exists meta. split; [reflexivity|].
  set (d1opt := if (String.eqb (m_filename meta) "" || path_exists (m_filename meta) d)%bool then _ else _) in H.
  assert (Hd1 : forall d1, d1opt = Some d1 ->
                  path_exists (m_filename meta) d1 = false
                  /\ forall name, In name (names d1) -> In name (names d)).
  { intros d1. subst d1opt.
    destruct (String.eqb (m_filename meta) "") eqn:He;
      destruct (path_exists (m_filename meta) d) eqn:Hex; cbn [orb];
      try (destruct (fst (remove_retry _ _ _)); try discriminate;
           intros [= <-]; split;
           [apply path_exists_remove_same
           | intros name Hin; apply names_remove_file in Hin; tauto]).
    intros [= <-]. split; [exact Hex | tauto]. }
  destruct d1opt as [d1|]; [|discriminate].
  destruct (Hd1 d1 eq_refl) as [Hvid Hsub].
  destruct (rm_meta_ok env); [|discriminate].
  injection H as <-.
  set (d2 := if (path_exists (clip_id ++ ".jpg") d1 && rm_thumb_ok env)%bool
             then _ else _).
  assert (Hd2 : forall name, In name (names d2) -> In name (names d1)).
  { intros name. subst d2. destruct (_ && _)%bool; [|tauto].
    intros Hin. apply names_remove_file in Hin. tauto. }
  assert (Hgone : path_exists (clip_id ++ ".json")
                    (remove_file (clip_id ++ ".json") d2) = false)
    by apply path_exists_remove_same.
  split; [exact Hgone|]. split; [|split; [|split]].
  - apply path_exists_remove_false. subst d2.
    destruct (_ && _)%bool; [apply path_exists_remove_false|]; exact Hvid.
  - intros Hok. apply path_exists_remove_false. subst d2. rewrite Hok.
    rewrite andb_true_r.
    destruct (path_exists (clip_id ++ ".jpg") d1) eqn:Hj;
      [apply path_exists_remove_same | exact Hj].
  - intros name Hin. apply names_remove_file in Hin as [Hin _].
    apply Hsub, Hd2, Hin.
  - intros getsize. unfold library_entry.
    apply read_file_none_iff in Hgone. rewrite Hgone. reflexivity.
Qed.

Lemma delete_clip_success_witness :
  let meta := build_meta "job" plain_submission [("job.mp4", Blob)] "2024" in
  let d := [("job.mp4", Blob); ("job.jpg", Blob); ("other.mp4", Blob);
            ("job.json", MetaFile meta)] in
  let env := {| rm_video := fun _ => RmOk;
                rm_thumb_ok := true; rm_meta_ok := true |} in
  delete_clip env "job" d = (true, [("other.mp4", Blob)])
  /\ path_exists "job.json" (snd (delete_clip env "job" d)) = false.
Proof.
  intros meta d env.
  destruct (delete_clip_success env "job" d [("other.mp4", Blob)] eq_refl)
    as [m [_ [H _]]].
  split; [reflexivity | exact H].
Defined.

(** X9.  [delete_clip] touches three names at most: the metadata record of
    the id, its thumbnail and the media file the record names.  Every other
    file of the directory is as before, whether the call succeeds or not. *)
Theorem delete_clip_keeps_others (env : delete_env) (clip_id : string)
  (d : fs) (name : string) :
  name <> (clip_id ++ ".json")%string ->
  name <> (clip_id ++ ".jpg")%string ->
  (forall meta : metadata,
      read_file (clip_id ++ ".json") d = Some (MetaFile meta) ->
      name <> m_filename meta) ->
  read_file name (snd (delete_clip env clip_id d)) = read_file name d.
Proof.
  intros Hjson Hjpg Hvid. rewrite delete_clip_unfold.
  destruct (read_file (clip_id ++ ".json") d) as [[|meta]|] eqn:Hmeta;
    try reflexivity.
  specialize (Hvid meta eq_refl).
  assert (Hd1 : forall d1,
             (if (String.eqb (m_filename meta) ""
                  || path_exists (m_filename meta) d)%bool
              then match fst (remove_retry (rm_video env) RETRIES 0) with
                   | Deleted => Some (remove_file (m_filename meta) d)
                   | _ => None
                   end
              else Some d) = Some d1 ->
             read_file name d1 = read_file name d).
  { intros d1. destruct (_ || _)%bool.
    - destruct (fst _); try discriminate. intros [= <-].
      apply read_file_remove_other. exact Hvid.
    - intros [= <-]. reflexivity. }
  destruct (if (_ || _)%bool then _ else _) as [d1|]; [|reflexivity].
  specialize (Hd1 d1 eq_refl).
  assert (Hd2 : read_file name
                  (if (path_exists (clip_id ++ ".jpg") d1
                       && rm_thumb_ok env)%bool
                   then remove_file (clip_id ++ ".jpg") d1 else d1)
                = read_file name d).
  { destruct (_ && _)%bool; [|exact Hd1].
    rewrite read_file_remove_other by exact Hjpg. exact Hd1. }
  destruct (rm_meta_ok env); simpl; [|exact Hd2].
  rewrite read_file_remove_other by exact Hjson. exact Hd2.
Qed.

Lemma delete_clip_keeps_others_witness :
  let meta := build_meta "job" plain_submission [("job.mp4", Blob)] "2024" in
  let d := [("job.mp4", Blob); ("other.mp4", Blob);
            ("job.json", MetaFile meta)] in
  let env := {| rm_video := fun _ => RmOk;
                rm_thumb_ok := true; rm_meta_ok := true |} in
  read_file "other.mp4" (snd (delete_clip env "job" d)) = Some Blob.
Proof.
  intros meta d env.
  rewrite (delete_clip_keeps_others env "job" d "other.mp4");
    [reflexivity | discriminate | discriminate |].
  intros m [= <-]. discriminate.
Defined.

(** X10.  A lock that is released in time does not fail the deletion: when
    the first [k] removals of the media file raise [PermissionError] and the
    next one succeeds, with [k] below 20, [os.remove] is called [k + 1]
    times, [delete_clip] returns [True] (given that the record itself can be
    removed) and the handler answers "deleted". *)
Theorem delete_clip_after_retries (env : delete_env) (clip_id : string)
  (d : fs) (meta : metadata) (k : nat) :
  read_file (clip_id ++ ".json") d = Some (MetaFile meta) ->
  path_exists (m_filename meta) d = true ->
  k < RETRIES ->
  (forall j : nat, j < k -> rm_video env j = RmPermissionError) ->
  rm_video env k = RmOk ->
  rm_meta_ok env = true ->
  remove_retry (rm_video env) RETRIES 0 = (Deleted, S k)
  /\ fst (delete_clip env clip_id d) = true
  /\ fst (delete_handler env clip_id d) = (200%Z, "deleted").
Proof.
  intros Hmeta Hvid Hk Hlocked Hok Hrm.
  assert (Hretry : remove_retry (rm_video env) RETRIES 0 = (Deleted, S k)).
  { apply remove_retry_within; [exact Hk | | exact Hok].
    intros j Hj. apply Hlocked. lia. }
  assert (Hdel : fst (delete_clip env clip_id d) = true).
  { rewrite delete_clip_unfold. rewrite Hmeta, Hvid, orb_true_r, Hretry, Hrm.
    reflexivity. }
  split; [exact Hretry|]. split; [exact Hdel|].
  unfold delete_handler. destruct (delete_clip env clip_id d) as [b d'].
  simpl in Hdel. subst b. reflexivity.
Qed.

Lemma delete_clip_after_retries_witness :
  let meta := build_meta "job" plain_submission [("job.mp4", Blob)] "2024" in
  let d := [("job.mp4", Blob); ("job.json", MetaFile meta)] in
  let env := {| rm_video := fun i => if Nat.ltb i 3 then RmPermissionError
                                    else RmOk;
                rm_thumb_ok := true; rm_meta_ok := true |} in
  remove_retry (rm_video env) RETRIES 0 = (Deleted, 4)
  /\ fst (delete_clip env "job" d) = true.
Proof.
  intros meta d env.
  destruct (delete_clip_after_retries env "job" d meta 3)
    as [H1 [H2 _]]; try reflexivity.
  - unfold RETRIES. lia.
  - intros j Hj. simpl. destruct j as [|[|[|j]]]; try reflexivity. lia.
  - split; assumption.
Defined.

(** ** [update_metadata]: properties *)

Lemma names_write_existing (name : string) (f : file) (d : fs) :
  path_exists name d = true -> names (write_file name f d) = names d.
Proof.
  intros Hex. unfold write_file. rewrite Hex. unfold names.
  clear Hex. induction d as [|[n g] d IH]; [reflexivity|]. simpl.
  rewrite IH. destruct (String.eqb name n) eqn:Hn; [|reflexivity].
  apply String.eqb_eq in Hn. subst n. reflexivity.
Qed.

Lemma write_file_twice (name : string) (f g : file) (d : fs) :
  path_exists name d = true ->
  write_file name g (write_file name f d) = write_file name g d.
Proof.
  intros Hex.
  assert (Hex' : path_exists name (write_file name f d) = true).
  { unfold path_exists. rewrite names_write_existing by exact Hex. exact Hex. }
  unfold write_file at 1. rewrite Hex'.
  unfold write_file. rewrite Hex. clear Hex Hex'.
  induction d as [|[n h] d IH]; [reflexivity|]. simpl. rewrite IH.
  destruct (String.eqb name n) eqn:Hn; simpl.
  - rewrite String.eqb_refl. reflexivity.
  - rewrite Hn. reflexivity.
Qed.

Lemma apply_update_twice (u : update_request) (m : metadata) :
  apply_update u (apply_update u m) = apply_update u m.
Proof.
  unfold apply_update. simpl.
  destruct (u_tags u), (u_custom_title u), (u_description u), (u_group_id u),
    (u_source_status u), (u_last_checked u), (u_profile_id u); reflexivity.
Qed.

Lemma read_file_some_exists (name : string) (d : fs) (f : file) :
  read_file name d = Some f -> path_exists name d = true.
Proof.
  intros H. destruct (path_exists name d) eqn:Hex; [reflexivity|].
  apply read_file_none_iff in Hex. congruence.
Qed.

(** X11.  An update that returns never adds or removes a file and changes
    no file but the record of its id; an id without a record changes
    nothing (and is still answered with "success").  In the record it can
    only change the seven editable keys: id, file name, source URL, title,
    range, quality profile, creation time and thumbnail are as they were. *)
Theorem update_metadata_scope (u : update_request) (d d' : fs) :
  update_metadata u d = Some d' ->
  names d' = names d
  /\ (forall name : string,
         name <> (u_id u ++ ".json")%string ->
         read_file name d' = read_file name d)
  /\ (read_file (u_id u ++ ".json") d = None ->
      d' = d /\ update_handler u d = Some ("success", d))
  /\ (forall m : metadata,
         read_file (u_id u ++ ".json") d = Some (MetaFile m) ->
         exists m' : metadata,
           read_file (u_id u ++ ".json") d' = Some (MetaFile m')
           /\ m_id m' = m_id m /\ m_filename m' = m_filename m
           /\ m_original_url m' = m_original_url m /\ m_title m' = m_title m
           /\ m_range m' = m_range m
           /\ m_quality_profile m' = m_quality_profile m
           /\ m_created_at m' = m_created_at m
           /\ m_thumbnail m' = m_thumbnail m).
Proof.
  unfold update_handler, update_metadata. intros H.
  destruct (read_file (u_id u ++ ".json") d) as [[|m]|] eqn:Hm;
    try discriminate; injection H as <-.
  - split; [apply names_write_existing, (read_file_some_exists _ _ _ Hm)|].
    split; [intros name Hne; apply read_file_write_other; exact Hne|].
    split; [discriminate|].
    intros m0 [= <-]. exists (apply_update u m).
    split; [apply read_write_same|]. repeat split.
  - split; [reflexivity|]. split; [reflexivity|].
    split; [split; reflexivity | discriminate].
Qed.

Lemma update_metadata_scope_witness :
  let meta := build_meta "job" plain_submission [("job.mp4", Blob)] "2024" in
  let d := [("job.mp4", Blob); ("job.json", MetaFile meta)] in
  let u := {| u_id := "job"; u_tags := Some "a, b"; u_custom_title := None;
              u_description := None; u_group_id := None;
              u_source_status := None; u_last_checked := None;
              u_profile_id := None |} in
  exists d' : fs, update_metadata u d = Some d' /\ names d' = names d.
Proof.
  intros meta d u.
  exists [("job.mp4", Blob); ("job.json", MetaFile (apply_update u meta))].
  split; [reflexivity|].
  apply (update_metadata_scope u d _ eq_refl).
Defined.

(** X12.  Sending the same update twice is the same as sending it once: the
    second call returns and leaves the directory as the first one did. *)
Theorem update_metadata_idempotent (u : update_request) (d d' : fs) :
  update_metadata u d = Some d' -> update_metadata u d' = Some d'.
Proof.
  unfold update_metadata. intros H.
  destruct (read_file (u_id u ++ ".json") d) as [[|m]|] eqn:Hm;
    try discriminate; injection H as <-.
  - rewrite read_write_same. rewrite apply_update_twice.
    rewrite write_file_twice by exact (read_file_some_exists _ _ _ Hm).
    reflexivity.
  - rewrite Hm. reflexivity.
Qed.

Lemma update_metadata_idempotent_witness :
  let meta := build_meta "job" plain_submission [("job.mp4", Blob)] "2024" in
  let u := {| u_id := "job"; u_tags := Some "a, b"; u_custom_title := None;
              u_description := None; u_group_id := None;
              u_source_status := None; u_last_checked := None;
              u_profile_id := None |} in
  let d' := [("job.mp4", Blob); ("job.json", MetaFile (apply_update u meta))] in
  update_metadata u d' = Some d'.
Proof.
  intros meta u d'.
  apply (update_metadata_idempotent u
           [("job.mp4", Blob); ("job.json", MetaFile meta)] d').
  reflexivity.
Defined.

(** ** The library listing: properties *)

Lemma leb_iff (a b : string) :
  String.leb a b = true <-> a = b \/ String_as_OT.lt a b.
Proof.
  unfold String.leb.
  destruct (String.compare a b) eqn:Hc.
  - apply String_as_OT.cmp_eq in Hc. tauto.
  - apply String_as_OT.cmp_lt in Hc. tauto.
  - split; [discriminate|]. intros [->|Hlt].
    + assert (String.compare b b = Eq) by (apply String_as_OT.cmp_eq; reflexivity).
      congruence.
    + apply String_as_OT.cmp_lt in Hlt. unfold String_as_OT.cmp in Hlt.
      congruence.
Qed.

Lemma leb_trans (a b c : string) :
  String.leb a b = true -> String.leb b c = true -> String.leb a c = true.
Proof.
  rewrite !leb_iff. intros [->|Hab] [->|Hbc]; auto.
  right. apply (String_as_OT.lt_trans _ _ _ Hab Hbc).
Qed.

Lemma ltb_false_leb (a b : string) :
  String.ltb a b = false -> String.leb b a = true.
Proof.
  unfold String.ltb, String.leb. rewrite (String.compare_antisym b a).
  destruct (String.compare a b); simpl; congruence.
Qed.

Lemma ltb_true_leb (a b : string) :
  String.ltb a b = true -> String.leb a b = true.
Proof.
  unfold String.ltb, String.leb. destruct (String.compare a b); congruence.
Qed.

Lemma not_older_trans (a b c : clip) :
  not_older a b -> not_older b c -> not_older a c.
Proof. unfold not_older. intros Hab Hbc. apply (leb_trans _ _ _ Hbc Hab). Qed.

Lemma insert_desc_perm (c : clip) (l : list clip) :
  Permutation (insert_desc c l) (c :: l).
Proof.
  induction l as [|x l IH]; simpl; [reflexivity|].
  destruct (String.ltb (created_at c) (created_at x)); [|reflexivity].
  rewrite IH. apply perm_swap.
Qed.

Lemma sort_desc_perm (l : list clip) : Permutation (sort_desc l) l.
Proof.
  induction l as [|c l IH]; simpl; [reflexivity|].
  rewrite insert_desc_perm, IH. reflexivity.
Qed.

Lemma insert_desc_sorted (c : clip) (l : list clip) :
  StronglySorted not_older l -> StronglySorted not_older (insert_desc c l).
Proof.
  induction 1 as [|x l Hl IH Hx]; simpl.
  - constructor; constructor.
  - destruct (String.ltb (created_at c) (created_at x)) eqn:Hlt.
    + constructor; [exact IH|].
      apply List.Forall_forall. intros y Hy.
      apply (Permutation_in _ (insert_desc_perm c l)) in Hy.
      destruct Hy as [<-|Hy].
      * apply ltb_true_leb, Hlt.
      * rewrite List.Forall_forall in Hx. apply Hx, Hy.
    + assert (Hcx : not_older c x) by apply ltb_false_leb, Hlt.
      constructor; [constructor; assumption|].
      constructor; [exact Hcx|].
      apply List.Forall_forall. intros y Hy. rewrite List.Forall_forall in Hx.
      apply (not_older_trans c x y Hcx (Hx y Hy)).
Qed.

(** X13.  The listing is the clips gathered from the metadata files, each
    once, none lost, ordered by [created_at] from the latest to the
    earliest: every clip stands before all clips whose [created_at] is not
    greater than its own. *)
Theorem get_library_data_sorted (getsize : string -> Z) (d : fs) :
  StronglySorted not_older (get_library_data getsize d)
  /\ Permutation (get_library_data getsize d)
       (collect_clips getsize d (glob_json d)).
Proof.
  unfold get_library_data. split; [|apply sort_desc_perm].
  induction (collect_clips getsize d (glob_json d)) as [|c l IH]; simpl.
  - constructor.
  - apply insert_desc_sorted, IH.
Qed.

Lemma collect_clips_In (getsize : string -> Z) (d : fs) (c : clip)
  (l : list string) :
  In c (collect_clips getsize d l) <->
  exists name : string, In name l /\ library_entry getsize d name = Some c.
Proof.
  induction l as [|n l IH]; simpl.
  - split; [intros [] | intros [name [[] _]]].
  - destruct (library_entry getsize d n) as [c'|] eqn:Hn; simpl; rewrite IH.
    + split.
      * intros [<-|[name [Hin He]]]; [exists n; auto | exists name; auto].
      * intros [name [[<-|Hin] He]]; [left; congruence | right; eauto].
    + split.
      * intros [name [Hin He]]. exists name. auto.
      * intros [name [[<-|Hin] He]]; [congruence | eauto].
Qed.

(** X14.  A clip is in the listing only if it was read from a file of the
    directory whose name ends in ".json", holding a record that names a
    file, and that file is in the directory: a record whose media file is
    missing is not listed.  The listed record keeps the id and file name of
    the file, carries the size of the media file, and its thumbnail is
    [<id>.jpg] whenever that file exists. *)
Theorem get_library_data_sound (getsize : string -> Z) (d : fs) (c : clip) :
  In c (get_library_data getsize d) ->
  exists (name : string) (m : metadata),
    In name (names d) /\ Py.endswith ".json" name = true
    /\ read_file name d = Some (MetaFile m)
    /\ m_filename m <> "" /\ path_exists (m_filename m) d = true
    /\ m_id (c_meta c) = m_id m /\ m_filename (c_meta c) = m_filename m
    /\ m_created_at (c_meta c) = m_created_at m
    /\ c_file_size c = getsize (m_filename m)
    /\ (path_exists (m_id m ++ ".jpg") d = true ->
        m_thumbnail (c_meta c) = Some (m_id m ++ ".jpg")%string).
Proof.
  intros Hin.
  unfold get_library_data in Hin.
  apply (Permutation_in _ (sort_desc_perm _)) in Hin.
  apply collect_clips_In in Hin as [name [Hname Hentry]].
  unfold glob_json in Hname. apply filter_In in Hname as [Hname Hpat].
  apply andb_true_iff in Hpat as [Hjson _].
  unfold library_entry in Hentry.
  destruct (read_file name d) as [[|m]|] eqn:Hm; try discriminate.
  destruct (negb (String.eqb (m_filename m) "")) eqn:Hne; [|discriminate].
  destruct (path_exists (m_filename m) d) eqn:Hex; [|discriminate].
  simpl in Hentry. injection Hentry as <-.
  exists name, m. apply negb_true_iff, String.eqb_neq in Hne.
  split; [exact Hname|]. split; [exact Hjson|]. split; [exact Hm|].
  split; [exact Hne|]. split; [exact Hex|]. simpl.
  destruct (path_exists (m_id m ++ ".jpg") d); repeat split; discriminate.
Qed.

Lemma get_library_data_sound_witness :
  let meta := build_meta "job" plain_submission [("job.mp4", Blob)] "2024" in
  let d := [("job.mp4", Blob); ("job.json", MetaFile meta)] in
  exists (name : string) (m : metadata),
    read_file name d = Some (MetaFile m)
    /\ path_exists (m_filename m) d = true.
Proof.
  intros meta d.
  destruct (get_library_data_sound (fun _ => 0%Z) d
              {| c_meta := meta; c_file_size := 0 |})
    as [name [m [_ [_ [Hm [_ [Hex _]]]]]]]; [left; reflexivity|].
  exists name, m. split; assumption.
Defined.

(** ** From a job to the listing *)

Lemma find_media_exists (clip_id : string) (d : fs) (f : string) :
  In f (find_media clip_id d) -> path_exists f d = true /\ f <> "".
Proof.
  unfold find_media, glob_exact. intros Hf.
  apply filter_In in Hf as [Hf _].
  destruct (path_exists (clip_id ++ ".mp4") d) eqn:Hex.
  - destruct Hf as [<-|[]]. split; [exact Hex|].
    intros H. apply (f_equal String.length) in H.
    rewrite length_append in H. simpl in H. lia.
  - unfold glob_prefix in Hf. apply filter_In in Hf as [Hn Hp].
    split; [apply path_exists_In; exact Hn|].
    intros ->. destruct clip_id; discriminate.
Qed.

(** X15.  A job that reaches the [finally] block with status finished and
    whose artifact scan found a media file is in the library listing
    afterwards, under its id and with the file name the scan chose (ids are
    UUIDs, so the name of the record does not start with a dot). *)
Theorem finished_job_is_listed (py_float : string -> option float)
  (getsize : string -> Z) (clip_id : string) (data : submission)
  (env : job_env) :
  let res := start_download_process py_float clip_id data env in
  r_status (res_at_cleanup res) = SFinished ->
  find_media clip_id (disk env) <> [] ->
  Py.startswith "." (clip_id ++ ".json") = false ->
  exists c : clip,
    In c (get_library_data getsize (res_disk res))
    /\ m_id (c_meta c) = clip_id
    /\ m_filename (c_meta c) = media_filename clip_id (disk env)
    /\ path_exists (m_filename (c_meta c)) (res_disk res) = true.
Proof.
  intros res Hfin Hscan Hvisible.
  destruct (finished_disk py_float clip_id data env Hfin) as [_ [_ Hdisk]].
  fold res in Hdisk.
  assert (Hread : read_file (clip_id ++ ".json") (res_disk res)
                  = Some (MetaFile (build_meta clip_id data (disk env)
                                      (now env))))
    by (rewrite Hdisk; apply read_write_same).
  assert (Hkeep : forall name : string,
             name <> (clip_id ++ ".json")%string ->
             read_file name (res_disk res) = read_file name (disk env))
    by (intros name Hn; rewrite Hdisk; apply read_file_write_other, Hn).
  clear Hdisk.
  set (meta := build_meta clip_id data (disk env) (now env)) in *.
  set (f := media_filename clip_id (disk env)).
  assert (Hf : path_exists f (disk env) = true /\ f <> "").
  { apply (find_media_exists clip_id). subst f. unfold media_filename.
    destruct (find_media clip_id (disk env)); [congruence | left; reflexivity]. }
  destruct Hf as [Hex Hne].
  assert (Hex' : path_exists f (res_disk res) = true).
  { destruct (path_exists f (res_disk res)) eqn:H; [reflexivity|].
    apply read_file_none_iff in H. rewrite Hkeep in H.
    - apply read_file_none_iff in H. congruence.
    - apply media_filename_not_sidecar. right. reflexivity. }
  assert (Hentry : exists c, library_entry getsize (res_disk res)
                               (clip_id ++ ".json") = Some c
                             /\ m_id (c_meta c) = clip_id
                             /\ m_filename (c_meta c) = f).
  { unfold library_entry. rewrite Hread.
    change (m_filename meta) with f. rewrite Hex'.
    apply String.eqb_neq in Hne. rewrite Hne. simpl.
    eexists. split; [reflexivity|]. simpl.
    destruct (path_exists (clip_id ++ ".jpg") (res_disk res));
      split; reflexivity. }
  destruct Hentry as [c [Hc [Hid Hname]]].
  exists c. split; [|split; [exact Hid|split; [exact Hname|]]].
  - unfold get_library_data.
    apply (Permutation_in _ (Permutation_sym (sort_desc_perm _))).
    apply collect_clips_In. exists (clip_id ++ ".json")%string.
    split; [|exact Hc].
    unfold glob_json. apply filter_In. split.
    + apply path_exists_In.
      apply (read_file_some_exists _ _ _ Hread).
    + rewrite endswith_append, Hvisible. reflexivity.
  - rewrite Hname. exact Hex'.
Qed.

Lemma finished_job_is_listed_witness :
  exists c : clip,
    In c (get_library_data (fun _ => 0%Z)
            (res_disk (start_download_process PyFloat.float_dec "job"
                         plain_submission quiet_env)))
    /\ m_id (c_meta c) = "job".
Proof.
  destruct (finished_job_is_listed PyFloat.float_dec (fun _ => 0%Z) "job"
              plain_submission quiet_env)
    as [c [Hin [Hid _]]]; [reflexivity | discriminate | reflexivity |].
  exists c. split; assumption.
Defined.

(** X16.  A job that reaches the [finally] block with status finished but
    whose artifact scan found nothing leaves a metadata record that the
    library listing passes over: the record names [<id>.mp4], which is not
    in the directory, so no clip is listed from it. *)
Theorem finished_without_media_not_listed (py_float : string -> option float)
  (getsize : string -> Z) (clip_id : string) (data : submission)
  (env : job_env) :
  let res := start_download_process py_float clip_id data env in
  r_status (res_at_cleanup res) = SFinished ->
  find_media clip_id (disk env) = [] ->
  (exists meta : metadata,
      read_file (clip_id ++ ".json") (res_disk res) = Some (MetaFile meta)
      /\ m_filename meta = (clip_id ++ ".mp4")%string)
  /\ library_entry getsize (res_disk res) (clip_id ++ ".json") = None.
Proof.
  intros res Hfin Hscan.
  destruct (finished_disk py_float clip_id data env Hfin) as [_ [_ Hdisk]].
  fold res in Hdisk.
  assert (Hread : read_file (clip_id ++ ".json") (res_disk res)
                  = Some (MetaFile (build_meta clip_id data (disk env)
                                      (now env))))
    by (rewrite Hdisk; apply read_write_same).
  assert (Hkeep : forall name : string,
             name <> (clip_id ++ ".json")%string ->
             read_file name (res_disk res) = read_file name (disk env))
    by (intros name Hn; rewrite Hdisk; apply read_file_write_other, Hn).
  clear Hdisk.
  assert (Hname : m_filename (build_meta clip_id data (disk env) (now env))
                  = (clip_id ++ ".mp4")%string).
  { unfold build_meta, media_filename. simpl. rewrite Hscan. reflexivity. }
  split; [eexists; split; [exact Hread | exact Hname]|].
  unfold library_entry. rewrite Hread, Hname.
  assert (Hno : path_exists (clip_id ++ ".mp4") (res_disk res) = false).
  { apply read_file_none_iff. rewrite Hkeep by apply mp4_neq_json.
    apply read_file_none_iff, find_media_nil_no_mp4, Hscan. }
  rewrite Hno, andb_false_r. reflexivity.
Qed.

Lemma finished_without_media_not_listed_witness :
  library_entry (fun _ => 0%Z)
    (res_disk (start_download_process PyFloat.float_dec "job"
                 plain_submission
                 {| ffmpeg_exe := false; spawn_ok := true; events := [];
                    returncode := 0;
                    disk := [("job.jpg", Blob); ("other.mp4", Blob)];
                    now := "2024"; locked := fun _ => false;
                    late_cancel_wait := false; late_cancel_final := false;
                    late_cancel_grace := false |}))
    "job.json"
  = None.
Proof.
  apply (finished_without_media_not_listed PyFloat.float_dec (fun _ => 0%Z)
           "job" plain_submission
           {| ffmpeg_exe := false; spawn_ok := true; events := [];
              returncode := 0;
              disk := [("job.jpg", Blob); ("other.mp4", Blob)];
              now := "2024"; locked := fun _ => false;
              late_cancel_wait := false; late_cancel_final := false;
              late_cancel_grace := false |}); reflexivity.
Defined.

(** ** The tags gathered at startup: properties *)

Lemma clean_tags_In (tags t : string) :
  In t (clean_tags tags) <->
  t <> "" /\ exists raw : string, In raw (Py.split "," tags) /\ t = Py.strip raw.
Proof.
  unfold clean_tags. destruct (String.eqb tags "") eqn:He.
  - apply String.eqb_eq in He. subst tags. simpl. split; [intros []|].
    intros [Hne [raw [[<-|[]] ->]]]. apply Hne. reflexivity.
  - rewrite filter_In, in_map_iff, negb_true_iff, String.eqb_neq. split.
    + intros [[raw [<- Hin]] Hne]. split; [exact Hne|]. exists raw. auto.
    + intros [Hne [raw [Hin ->]]]. split; [exists raw; auto | exact Hne].
Qed.

Lemma synced_tags_fold (d : fs) (l : list string) :
  forall (acc : gset string) (t : string),
    t ∈ fold_left
          (fun existing_tags meta_name =>
             match read_file meta_name d with
             | Some (MetaFile m) =>
                 existing_tags ∪ list_to_set (clean_tags (m_tags m))
             | _ => existing_tags
             end) l acc
    <-> t ∈ acc
        \/ exists (name : string) (m : metadata),
             In name l /\ read_file name d = Some (MetaFile m)
             /\ In t (clean_tags (m_tags m)).
Proof.
  induction l as [|n l IH]; intros acc t; simpl.
  - split; [auto | intros [H|[name [m [[] _]]]]; exact H].
  - rewrite IH. destruct (read_file n d) as [[|m]|] eqn:Hn.
    + split.
      * intros [H|[name [m [Hin H]]]]; [auto | right; exists name, m; auto].
      * intros [H|[name [m [[<-|Hin] [Hr H]]]]];
          [auto | congruence | right; exists name, m; auto].
    + rewrite elem_of_union, elem_of_list_to_set, list_elem_of_In. split.
      * intros [[H|H]|[name [m' [Hin H]]]];
          [auto | right; exists n, m; auto | right; exists name, m'; auto].
      * intros [H|[name [m' [[<-|Hin] [Hr H]]]]];
          [auto | left; right; congruence | right; exists name, m'; auto].
    + split.
      * intros [H|[name [m [Hin H]]]]; [auto | right; exists name, m; auto].
      * intros [H|[name [m [[<-|Hin] [Hr H]]]]];
          [auto | congruence | right; exists name, m; auto].
Qed.

(** X17.  The tag set after the startup sync holds exactly the tags of the
    settings and, for every metadata record that loads, the pieces of its
    comma-separated [tags] field, stripped of surrounding white space, that
    are not empty.  So no tag of the settings is lost, no empty tag is
    added, and a record that does not load adds nothing. *)
Theorem synced_tags_spec (settings_tags : list string) (d : fs) (t : string) :
  t ∈ synced_tags settings_tags d <->
  In t settings_tags
  \/ (t <> ""
      /\ exists (name : string) (m : metadata) (raw : string),
           In name (glob_json d) /\ read_file name d = Some (MetaFile m)
           /\ In raw (Py.split "," (m_tags m)) /\ t = Py.strip raw).
Proof.
  unfold synced_tags. rewrite synced_tags_fold.
  rewrite elem_of_list_to_set, list_elem_of_In. split.
  - intros [H|[name [m [Hin [Hr Ht]]]]]; [auto|]. right.
    apply clean_tags_In in Ht as [Hne [raw [Hraw ->]]].
    split; [exact Hne|]. exists name, m, raw. auto.
  - intros [H|[Hne [name [m [raw [Hin [Hr [Hraw ->]]]]]]]]; [auto|]. right.
    exists name, m. split; [exact Hin|]. split; [exact Hr|].
    apply clean_tags_In. split; [exact Hne|]. exists raw. auto.
Qed.

(** ** The cancel handler and the registry *)

(** X18.  A cancel request never adds an entry to the registry and never
    removes one, known id or not: the set of ids that [/api/status] reports
    is the same before and after, and in the entry it changes nothing but
    the status. *)
Theorem cancel_handler_keeps_ids (clip_id : string)
  (reg : gmap string StatusRecord) :
  dom (fst (cancel_handler clip_id reg)) = dom reg
  /\ forall (other : string) (r r' : StatusRecord),
       reg !! other = Some r ->
       fst (cancel_handler clip_id reg) !! other = Some r' ->
       r_id r' = r_id r /\ r_title r' = r_title r
       /\ r_percent r' = r_percent r /\ r_size r' = r_size r
       /\ r_speed r' = r_speed r /\ r_eta r' = r_eta r.
Proof.
  unfold cancel_handler. simpl.
  destruct (reg !! clip_id) as [r0|] eqn:Hr.
  - split.
    + apply dom_insert_lookup_L. eauto.
    + intros other r r' Hother Hnew.
      destruct (decide (clip_id = other)) as [<-|Hne].
      * rewrite lookup_insert_eq in Hnew. injection Hnew as <-.
        rewrite Hr in Hother. injection Hother as <-. repeat split.
      * rewrite lookup_insert_ne in Hnew by exact Hne.
        rewrite Hother in Hnew. injection Hnew as <-. repeat split.
  - split; [reflexivity|].
    intros other r r' Hother Hnew. rewrite Hother in Hnew.
    injection Hnew as <-. repeat split.
Qed.

(** ** The fetch pattern: what its first group holds *)

(** Items that only read characters of a class within [P] consume a prefix
    made of such characters and hand the rest to what follows. *)
Lemma match_at_consumes (P : ascii -> bool) (body : regex) :
  Forall (fun it => exists k, item_class it = Some k
                              /\ forall c, in_class k c = true -> P c = true)
    body ->
  forall (rest : regex) (s : string) (marks r : list string),
    match_at (body ++ rest) s marks = Some r ->
    exists pre s' : string,
      s = (pre ++ s')%string /\ all_chars P pre = true
      /\ match_at rest s' marks = Some r.
Proof.
  induction 1 as [|it body [k [Hk HP]] _ IH]; intros rest s marks r H.
  - exists ""%string, s. auto.
  - assert (Hcons : forall c t pre s',
               in_class k c = true -> t = (pre ++ s')%string ->
               all_chars P pre = true ->
               String c t = (String c pre ++ s')%string
               /\ all_chars P (String c pre) = true).
    { intros c t pre s' Hc -> Hpre. split; [reflexivity|].
      simpl. rewrite (HP c Hc), Hpre. reflexivity. }
    destruct it; try discriminate Hk; injection Hk as ->;
      change ((?i :: body) ++ rest) with (i :: (body ++ rest)) in H;
      simpl in H.
    + destruct s as [|c s]; [discriminate|].
      destruct (in_class k c) eqn:Hc; [|discriminate].
      destruct (IH _ _ _ _ H) as [pre [s' [Hs [Hpre Hm]]]].
      exists (String c pre), s'.
      destruct (Hcons c s pre s' Hc Hs Hpre). auto.
    + destruct s as [|c s]; [apply (IH _ _ _ _ H)|].
      destruct (in_class k c) eqn:Hc; [|apply (IH _ _ _ _ H)].
      destruct (match_at (body ++ rest) s marks) as [r'|] eqn:Hr.
      * injection H as <-.
        destruct (IH _ _ _ _ Hr) as [pre [s' [Hs [Hpre Hm]]]].
        exists (String c pre), s'.
        destruct (Hcons c s pre s' Hc Hs Hpre). auto.
      * apply (IH _ _ _ _ H).
    + revert r H. induction s as [|c s IHs]; intros r H.
      * apply (IH _ _ _ _ H).
      * destruct (in_class k c) eqn:Hc; [|apply (IH _ _ _ _ H)].
        match type of H with
        | match ?g with _ => _ end = _ => destruct g as [r'|] eqn:Hr
        end.
        -- injection H as <-.
           destruct (IHs r' eq_refl) as [pre [s' [Hs [Hpre Hm]]]].
           exists (String c pre), s'.
           destruct (Hcons c s pre s' Hc Hs Hpre). auto.
        -- apply (IH _ _ _ _ H).
    + revert H. induction s as [|c s IHs]; intros H.
      * destruct (match_at (body ++ rest) "" marks) as [r'|] eqn:Hr;
          [|discriminate].
        injection H as <-. apply (IH _ _ _ _ Hr).
      * destruct (match_at (body ++ rest) (String c s) marks) as [r'|] eqn:Hr.
        -- injection H as <-. apply (IH _ _ _ _ Hr).
        -- destruct (in_class k c) eqn:Hc; [|discriminate].
           destruct (IHs H) as [pre [s' [Hs [Hpre Hm]]]].
           exists (String c pre), s'.
           destruct (Hcons c s pre s' Hc Hs Hpre). auto.
Qed.

(** Marks are only ever added in front. *)
Lemma match_at_extends (p : regex) :
  forall (s : string) (marks r : list string),
    match_at p s marks = Some r -> exists new, r = new ++ marks.
Proof.
  induction p as [|it p IH]; intros s marks r H.
  - simpl in H. injection H as <-. exists []. reflexivity.
  - destruct it; simpl in H.
    + destruct s as [|c s]; [discriminate|].
      destruct (in_class k c); [|discriminate]. apply (IH _ _ _ H).
    + destruct s as [|c s]; [apply (IH _ _ _ H)|].
      destruct (in_class k c); [|apply (IH _ _ _ H)].
      destruct (match_at p s marks) as [r'|] eqn:Hr.
      * injection H as <-. apply (IH _ _ _ Hr).
      * apply (IH _ _ _ H).
    + revert r H. induction s as [|c s IHs]; intros r H.
      * apply (IH _ _ _ H).
      * destruct (in_class k c); [|apply (IH _ _ _ H)].
        match type of H with
        | match ?g with _ => _ end = _ => destruct g as [r'|] eqn:Hr
        end.
        -- injection H as <-. apply IHs. reflexivity.
        -- apply (IH _ _ _ H).
    + revert H. induction s as [|c s IHs]; intros H.
      * destruct (match_at p "" marks) as [r'|] eqn:Hr; [|discriminate].
        injection H as <-. apply (IH _ _ _ Hr).
      * destruct (match_at p (String c s) marks) as [r'|] eqn:Hr.
        -- injection H as <-. apply (IH _ _ _ Hr).
        -- destruct (in_class k c); [|discriminate]. apply IHs. exact H.
    + destruct (IH _ _ _ H) as [new ->]. exists (new ++ [s]).
      rewrite <- app_assoc. reflexivity.
    + destruct (IH _ _ _ H) as [new ->]. exists (new ++ [s]).
      rewrite <- app_assoc. reflexivity.
Qed.

Lemma search_marks_at (p : regex) (s : string) (r : list string) :
  search_marks p s = Some r -> exists s0, match_at p s0 [] = Some r.
Proof.
  induction s as [|c s IH]; simpl; intros H.
  - destruct (match_at p "" []) as [r'|] eqn:Hr; [|discriminate].
    injection H as <-. eauto.
  - destruct (match_at p (String c s) []) as [r'|] eqn:Hr.
    + injection H as <-. eauto.
    + apply IH, H.
Qed.

Lemma match_at_open (p : regex) (s : string) (marks : list string) :
  match_at (GOpen :: p) s marks = match_at p s (s :: marks).
Proof. reflexivity. Qed.

Lemma match_at_close (p : regex) (s : string) (marks : list string) :
  match_at (GClose :: p) s marks = match_at p s (s :: marks).
Proof. reflexivity. Qed.

Lemma match_at_one (k : cclass) (p : regex) (s : string)
  (marks r : list string) :
  match_at (One k :: p) s marks = Some r ->
  exists (c : ascii) (s' : string),
    s = String c s' /\ in_class k c = true /\ match_at p s' marks = Some r.
Proof.
  destruct s as [|c s']; [discriminate|].
  change (match_at (One k :: p) (String c s') marks)
    with (if in_class k c then match_at p s' marks else None).
  destruct (in_class k c) eqn:Hc; [|discriminate].
  intros H. exists c, s'. auto.
Qed.

Lemma take_append (pre s : string) :
  Py.take (String.length (pre ++ s) - String.length s) (pre ++ s) = pre.
Proof.
  rewrite length_append.
  replace (String.length pre + String.length s - String.length s)
    with (String.length pre) by lia.
  induction pre as [|c pre IH]; simpl.
  - destruct s; reflexivity.
  - rewrite IH. reflexivity.
Qed.

(** X19.  The percent that a fetch line puts in the status record is a
    numeral followed by the percent sign: it starts with a digit and holds
    nothing but digits and dots before the sign. *)
Theorem fetch_percent_numeric (py_float : string -> option float)
  (total : float) (r : StatusRecord) (line : string) :
  progress_search (Py.strip line) <> None ->
  exists (c : ascii) (rest : string),
    r_percent (handle_line py_float total r line)
    = (String c rest ++ "%")%string
    /\ Py.isdigit c = true /\ all_chars digit_or_dot rest = true.
Proof.
  intros Hmatch. unfold handle_line.
  destruct (progress_search (Py.strip line))
    as [[[[percent size] speed] eta]|] eqn:Hps; [|congruence].
  simpl. clear Hmatch.
  cut (exists c rest, percent = String c rest /\ Py.isdigit c = true
                      /\ all_chars digit_or_dot rest = true).
  { intros [c [rest [-> [Hc Hrest]]]]. exists c, rest. auto. }
  unfold progress_search, Re.search in Hps.
  destruct (search_marks PROGRESS_REGEX (Py.strip line)) as [ms|] eqn:Hs;
    [|discriminate].
  pose proof (search_marks_length _ _ _ Hs) as Hlen.
  change (boundaries PROGRESS_REGEX) with 8 in Hlen.
  apply search_marks_at in Hs as [s0 Hm].
  change PROGRESS_REGEX
    with ((lit "[download]" ++ plus Space)
          ++ GOpen :: One Digit
               :: ([Star Digit; Opt (Chr "."); Star Digit]
                   ++ GClose
                      :: (lit "%" ++ plus Space ++ lit "of" ++ plus Space
                          ++ [Opt (Chr "~")]
                          ++ [GOpen] ++ plus NonSpace ++ [GClose]
                          ++ plus Space ++ lit "at" ++ plus Space
                          ++ [GOpen] ++ plus_lazy Dot ++ [GClose]
                          ++ plus Space ++ lit "ETA" ++ plus Space
                          ++ [GOpen] ++ plus NonSpace ++ [GClose]))) in Hm.
  apply (match_at_consumes (fun _ => true)) in Hm
      as [pre0 [s1 [_ [_ Hm]]]].
  2:{ cbn [lit app plus].
      repeat (apply List.Forall_cons;
              [eexists; split; reflexivity|]).
      apply List.Forall_nil. }
  rewrite match_at_open in Hm.
  apply match_at_one in Hm as [c [s2 [Hs1 [Hc Hm]]]].
  apply (match_at_consumes digit_or_dot) in Hm
      as [pre [s' [Hs2 [Hpre Hm]]]].
  2:{ repeat (apply List.Forall_cons;
              [eexists; split; [reflexivity|];
               intros a Ha; unfold digit_or_dot;
               first [ change (Py.isdigit a = true) in Ha;
                       rewrite Ha; reflexivity
                     | change (Ascii.eqb "." a = true) in Ha;
                       apply Ascii.eqb_eq in Ha; subst a; reflexivity ]|]).
      apply List.Forall_nil. }
  rewrite match_at_close in Hm. apply match_at_extends in Hm as [new ->].
  rewrite length_app in Hlen. simpl in Hlen.
  do 7 (destruct new as [|? new]; try (simpl in Hlen; lia)).
  cbn [app groups groups_rev rev option_map] in Hps.
  injection Hps as <- _ _ _.
  exists c, pre. split; [|split; [exact Hc | exact Hpre]].
  subst s1 s2. apply (take_append (String c pre) s').
Qed.

Lemma fetch_percent_numeric_witness :
  exists (c : ascii) (rest : string),
    r_percent (handle_line PyFloat.float_dec 0%float
                 (initial_record "job" "Unknown") fetch_line)
    = (String c rest ++ "%")%string
    /\ Py.isdigit c = true.
Proof.
  destruct (fetch_percent_numeric PyFloat.float_dec 0%float
              (initial_record "job" "Unknown") fetch_line)
    as [c [rest [H [Hc _]]]]; [discriminate|].
  exists c, rest. split; assumption.
Defined.

(** ** A cancel during the download, end to end *)

Lemma supervise_sees_cancel (py_float : string -> option float)
  (total : float) (evs : list event) :
  forall r : StatusRecord,
    In CancelRequest evs ->
    r_status (supervise py_float total evs r) = SCancelled.
Proof.
  induction evs as [|ev evs IH]; intros r Hin; [destruct Hin|].
  simpl. destruct (status_eqb (r_status r) SCancelled) eqn:Hc;
    [apply status_eqb_eq; exact Hc|].
  destruct Hin as [->|Hin].
  - rewrite supervise_cancelled; reflexivity.
  - destruct ev; [apply IH, Hin | apply IH, Hin |].
    rewrite supervise_cancelled; reflexivity.
Qed.

(** X20.  A cancel request served while the loop runs ends the job as
    cancelled: no metadata record is written, the cleanup runs, the status
    stays cancelled until the entry is removed, and, provided removing
    [<id>.json] does not fail should such a file be there, the directory
    holds no record of the job and the library listing has no clip from
    it. *)
Theorem cancelled_job_not_listed (py_float : string -> option float)
  (getsize : string -> Z) (clip_id : string) (data : submission)
  (env : job_env) :
  spawn_ok env = true ->
  In CancelRequest (events env) ->
  locked env (clip_id ++ ".json") = false ->
  let res := start_download_process py_float clip_id data env in
  r_status (res_after_loop res) = SCancelled
  /\ r_status (res_last res) = SCancelled
  /\ res_meta res = None
  /\ res_cleaned res = true
  /\ path_exists (clip_id ++ ".json") (res_disk res) = false
  /\ library_entry getsize (res_disk res) (clip_id ++ ".json") = None.
Proof.
  intros Hs Hin Hlock res. subst res. unfold start_download_process.
  rewrite Hs. unfold finalize.
  rewrite (proj2 (status_eqb_eq _ _)
             (supervise_sees_cancel py_float _ (events env) _ Hin)).
  simpl. rewrite !r_status_cancel_if.
  rewrite (supervise_sees_cancel py_float _ (events env) _ Hin).
  assert (Hst : (if late_cancel_final env then SCancelled else SCancelled)
                = SCancelled) by (destruct (late_cancel_final env); reflexivity).
  rewrite Hst. simpl.
  assert (Hgone : path_exists (clip_id ++ ".json")
                    (cleanup (locked env) clip_id (disk env)) = false).
  { destruct (path_exists _ (cleanup _ _ _)) eqn:Hex; [|reflexivity].
    apply path_exists_In, cleanup_removes in Hex as [_ Hex].
    rewrite Hex in Hlock; [discriminate | apply startswith_append]. }
  split; [reflexivity|].
  split; [destruct (late_cancel_grace env); reflexivity|].
  split; [reflexivity|]. split; [reflexivity|]. split; [exact Hgone|].
  unfold library_entry. apply read_file_none_iff in Hgone. rewrite Hgone.
  reflexivity.
Qed.

Lemma cancelled_job_not_listed_witness :
  r_status
    (res_last
       (start_download_process PyFloat.float_dec "job" plain_submission
          {| ffmpeg_exe := false; spawn_ok := true;
             events := [Line fetch_line; CancelRequest; Line fetch_line];
             returncode := (-9)%Z;
             disk := [("job.mp4.part", Blob); ("other.mp4", Blob)];
             now := ""; locked := fun _ => false;
             late_cancel_wait := false; late_cancel_final := false;
             late_cancel_grace := false |}))
  = SCancelled.
Proof.
  apply (cancelled_job_not_listed PyFloat.float_dec (fun _ => 0%Z) "job"
           plain_submission
           {| ffmpeg_exe := false; spawn_ok := true;
              events := [Line fetch_line; CancelRequest; Line fetch_line];
              returncode := (-9)%Z;
              disk := [("job.mp4.part", Blob); ("other.mp4", Blob)];
              now := ""; locked := fun _ => false;
              late_cancel_wait := false; late_cancel_final := false;
              late_cancel_grace := false |});
    [reflexivity | simpl; auto | reflexivity].
Defined.
